(** * The itinerary validator of TravelAgent ([validation_agent.py])

    A shallow embedding of [ValidationAgent]: the five rule checks, the
    warnings, the quality score, the status classifier and the batch driver,
    followed by the properties of the validator that the specification
    states.  The conversions between plans and dictionaries of the planner
    and the refinement agent ([_parse_plan_json], [_plan_to_dict],
    [_dict_to_plan]) are embedded as well; further properties of the
    validator and of these conversions come last.

    Modelling conventions.
    - Python [float]s (costs, hours, the score) are exact rationals [Q];
      rounding, infinities and NaN are not represented.  Division is the one
      arithmetic operation that can fail and raises [ZeroDivisionError] on a
      zero divisor, as Python's does.
    - Exceptions are values of [PyError] threaded through the [Result] monad;
      the validator has no [try]/[except], so the first exception ends the
      call that raised it and every caller above it.
    - [dict]s are finite maps ([gmap]) from strings to dynamically typed
      values ([PyVal]).
    - An f-string is kept as the list of its literal and formatted pieces
      ([fstring]); the rendering of numbers to digits is not modelled.
    - Strings are ASCII; [print] calls, which only write to the console, are
      left out.
    - JSON-like values (the planner's response, a plan as a dictionary) are
      values of [Json]; what a conversion returns or raises is an [Outcome]. *)

From Stdlib Require Import QArith Qround Qminmax Lqa ZArith Ascii String List.
From stdpp Require Import base option list strings gmap.
Import ListNotations.

Local Open Scope string_scope.
Local Open Scope list_scope.

(** ** Exceptions *)

Inductive PyError : Type :=
| ZeroDivisionError
| ValueError
| OverflowError
| TypeError.

Inductive Result (A : Type) : Type :=
| Ok (a : A)
| Raise (e : PyError).
Arguments Ok {A} a.
Arguments Raise {A} e.

#[export] Instance Result_ret : MRet Result := fun _ a => Ok a.
#[export] Instance Result_bind : MBind Result := fun _ _ f m =>
  match m with
  | Ok a => f a
  | Raise e => Raise e
  end.
#[export] Instance Result_fmap : FMap Result := fun _ _ f m =>
  match m with
  | Ok a => Ok (f a)
  | Raise e => Raise e
  end.

Definition is_Ok {A} (r : Result A) : Prop := exists a, r = Ok a.
Definition is_Raise {A} (r : Result A) : Prop := exists e, r = Raise e.

(** ** Dynamically typed values and numbers *)

Inductive PyVal : Type :=
| PyNone
| PyStr (s : string)
| PyNum (x : Q).

(** Python truthiness: [None], the empty string and zero are falsy. *)
Definition truthy (v : PyVal) : bool :=
  match v with
  | PyNone => false
  | PyStr s => negb (String.eqb s "")
  | PyNum x => negb (Qeq_bool x 0)
  end.

(** Arithmetic on a value that is not a number raises [TypeError]. *)
Definition as_number (v : PyVal) : Result Q :=
  match v with
  | PyNum x => Ok x
  | _ => Raise TypeError
  end.

Definition Qlt_bool (x y : Q) : bool := negb (Qle_bool y x).

Definition py_div (x y : Q) : Result Q :=
  if Qeq_bool y 0 then Raise ZeroDivisionError else Ok (x / y)%Q.

(** ** f-strings *)

Inductive fpart : Type :=
| Lit (s : string)                 (* literal text *)
| FmtNum (spec : string) (x : Q)   (* {x:spec}, or {x} when spec is empty *)
| FmtInt (n : Z)                   (* {n} for an int *)
| FmtStr (s : string).             (* {s} for a str *)

Definition fstring : Type := list fpart.

(** ** The itinerary model ([planner_agent.py]) *)

Module Activity.
Record t : Type := mk {
    time : string;
    name : string;
    location : string;
    description : string;
    estimated_cost : Q;
    duration_hours : Q;
    category : string;
    source : string
}.
End Activity.

Module DayPlan.
Record t : Type := mk {
    day_number : Z;
    date : string;
    theme : string;
    activities : list Activity.t;
    total_cost : Q;
    notes : string
}.
End DayPlan.

(** [daily_plans] is [None] for a plan object that carries no iterable
    [daily_plans] (the attribute is [None]); [accommodation] and
    [transportation] are [None] when the plan holds [None] there. *)
Module TravelPlan.
Record t : Type := mk {
    plan_id : string;
    plan_name : string;
    theme : string;
    total_cost : Q;
    cost_breakdown : gmap string Q;
    daily_plans : option (list DayPlan.t);
    accommodation : option (gmap string PyVal);
    transportation : option (gmap string PyVal);
    key_highlights : list string;
    pace : string
}.
End TravelPlan.

(** ** Validation results *)

Record ValidationIssue : Type := {
  severity : string;
  category : string;
  day_number : option Z;
  problem : fstring;
  suggestion : fstring;
  affected_activities : list string
}.

Record ValidationResult : Type := {
  plan_id : string;
  status : string;
  issues : list ValidationIssue;
  warnings : list fstring;
  score : Q
}.

(** ** Thresholds *)

Definition MAX_DAILY_ACTIVITIES : nat := 8.
Definition MIN_DAILY_ACTIVITIES : nat := 3.
Definition MAX_DAILY_COST_VARIANCE : Q := 4 # 10.
Definition MIN_TIME_BETWEEN_ACTIVITIES : Q := 5 # 10.
Definition MAX_ACTIVITY_DURATION : Q := 6.
Definition BUDGET_TOLERANCE : Q := 10 # 100.

(** ** Check 1: budget *)

Definition _validate_budget (plan : TravelPlan.t)
    (user_requirements : gmap string PyVal) : Result (list ValidationIssue) :=
  let budget := default (PyNum 0) (user_requirements !! "budget") in
  let plan_cost := TravelPlan.total_cost plan in
  user_budget ← as_number budget;
  if Qlt_bool (user_budget * (1 + BUDGET_TOLERANCE)) plan_cost then
    let over_amount := (plan_cost - user_budget)%Q in
    ratio ← py_div over_amount user_budget;
    let over_percentage := (ratio * 100)%Q in
    Ok [ {| severity := "critical";
            category := "budget";
            day_number := None;
            problem := [Lit "Total cost $"; FmtNum ".2f" plan_cost;
                        Lit " exceeds budget $"; FmtNum ".2f" user_budget;
                        Lit " by $"; FmtNum ".2f" over_amount;
                        Lit " ("; FmtNum ".1f" over_percentage; Lit "%)"];
            suggestion := [Lit "Reduce accommodation tier, eliminate expensive activities, or increase budget by $";
                           FmtNum ".2f" over_amount];
            affected_activities := [] |} ]
  else if Qlt_bool plan_cost (user_budget * (6 # 10)) then
    ratio ← py_div plan_cost user_budget;
    Ok [ {| severity := "low";
            category := "budget";
            day_number := None;
            problem := [Lit "Plan only uses "; FmtNum ".1f" (ratio * 100)%Q;
                        Lit "% of available budget"];
            suggestion := [Lit "Consider upgrading accommodation or adding premium experiences"];
            affected_activities := [] |} ]
  else Ok [].

(** ** Wall-clock times ([datetime.strptime], [timedelta])

    A [datetime] is the number of microseconds after 1900-01-01 00:00, the
    date [strptime] gives a value parsed with the format ["%H:%M"]; a
    [timedelta] is a number of microseconds. *)

Definition digit_of (c : ascii) : option Z :=
  let n := Z.of_N (N_of_ascii c) in
  if (48 <=? n)%Z && (n <=? 57)%Z then Some (n - 48)%Z else None.

(** The ways the group [(?P<H>2[0-3]|[0-1]\d|\d)] matches a prefix of [s],
    in the order the regex engine tries them; each with the text left. *)
Definition match_H (s : string) : list (Z * string) :=
  match s with
  | String c1 r1 =>
      match digit_of c1 with
      | Some d1 =>
          match r1 with
          | String c2 r2 =>
              match digit_of c2 with
              | Some d2 =>
                  (if (d1 =? 2)%Z && (d2 <=? 3)%Z then [((20 + d2)%Z, r2)] else [])
                  ++ (if (d1 <=? 1)%Z then [((10 * d1 + d2)%Z, r2)] else [])
              | None => []
              end
          | EmptyString => []
          end ++ [(d1, r1)]
      | None => []
      end
  | EmptyString => []
  end.

(** The same for [(?P<M>[0-5]\d|\d)]. *)
Definition match_M (s : string) : list (Z * string) :=
  match s with
  | String c1 r1 =>
      match digit_of c1 with
      | Some d1 =>
          match r1 with
          | String c2 r2 =>
              match digit_of c2 with
              | Some d2 => if (d1 <=? 5)%Z then [((10 * d1 + d2)%Z, r2)] else []
              | None => []
              end
          | EmptyString => []
          end ++ [(d1, r1)]
      | None => []
      end
  | EmptyString => []
  end.

Definition match_colon (s : string) : list string :=
  match s with
  | String ":" r => [r]
  | _ => []
  end.

Definition US_PER_MINUTE : Z := 60000000.
Definition US_PER_HOUR : Z := 3600000000.
Definition US_PER_DAY : Z := 86400000000.

(** [datetime.strptime(s, "%H:%M")]: the first match of the format's regex
    at the start of [s]; [ValueError] when there is none or when text
    remains after it. *)
Definition strptime (s : string) : Result Z :=
  let found :=
    '(h, r1) ← match_H s;
    r2 ← match_colon r1;
    '(m, r3) ← match_M r2;
    [(h, m, r3)] in
  match found with
  | (h, m, EmptyString) :: _ => Ok ((h * 60 + m) * US_PER_MINUTE)%Z
  | _ => Raise ValueError
  end.

Definition round_half_even (x : Q) : Z :=
  let f := Qfloor x in
  match ((x - inject_Z f) ?= 1 # 2)%Q with
  | Lt => f
  | Gt => (f + 1)%Z
  | Eq => if Z.even f then f else (f + 1)%Z
  end.

(** [timedelta(hours=h)]: rounded to the microsecond, [OverflowError] beyond
    999999999 days. *)
Definition timedelta_hours (h : Q) : Result Z :=
  let us := round_half_even (h * inject_Z US_PER_HOUR) in
  if (Z.abs (us / US_PER_DAY) <=? 999999999)%Z then Ok us
  else Raise OverflowError.

(** [datetime + timedelta]: the result has to lie between the years 1 and
    9999, that is, its proleptic ordinal between 1 and 3652059; 1900-01-01
    has ordinal 693596. *)
Definition datetime_add (t d : Z) : Result Z :=
  let ordinal := (693596 + (t + d) / US_PER_DAY)%Z in
  if (0 <? ordinal)%Z && (ordinal <=? 3652059)%Z then Ok (t + d)%Z
  else Raise OverflowError.

(** [(a - b).total_seconds() / 3600] *)
Definition hours_between (a b : Z) : Q :=
  (inject_Z (a - b) / 1000000 / 3600)%Q.

(** ** Check 2: timing *)

Definition names (activities : list Activity.t) : list string :=
  map Activity.name activities.

Definition too_many_issue (day : DayPlan.t) : ValidationIssue :=
  let activities := DayPlan.activities day in
  {| severity := "high";
     category := "timing";
     day_number := Some (DayPlan.day_number day);
     problem := [Lit "Day "; FmtInt (DayPlan.day_number day); Lit " has ";
                 FmtInt (Z.of_nat (length activities));
                 Lit " activities (max recommended: ";
                 FmtInt (Z.of_nat MAX_DAILY_ACTIVITIES); Lit ")"];
     suggestion := [Lit "Remove or combine some activities to avoid exhaustion"];
     affected_activities := names activities |}.

Definition too_few_issue (day : DayPlan.t) : ValidationIssue :=
  let activities := DayPlan.activities day in
  {| severity := "low";
     category := "timing";
     day_number := Some (DayPlan.day_number day);
     problem := [Lit "Day "; FmtInt (DayPlan.day_number day); Lit " only has ";
                 FmtInt (Z.of_nat (length activities)); Lit " activities"];
     suggestion := [Lit "Consider adding more experiences to make the most of your day"];
     affected_activities := names activities |}.

(** The [if]/[elif] on the number of activities of a day. *)
Definition activity_count_issues (day : DayPlan.t) : list ValidationIssue :=
  let activities := DayPlan.activities day in
  if (MAX_DAILY_ACTIVITIES <? length activities)%nat then [too_many_issue day]
  else if (length activities <? MIN_DAILY_ACTIVITIES)%nat then [too_few_issue day]
  else [].

(** [buffer_time] of one iteration of the loop over consecutive activities. *)
Definition buffer_time (current next_activity : Activity.t) : Result Q :=
  current_time ← strptime (Activity.time current);
  next_time ← strptime (Activity.time next_activity);
  delta ← timedelta_hours (Activity.duration_hours current);
  current_end ← datetime_add current_time delta;
  Ok (hours_between next_time current_end).

Definition buffer_issue (day : DayPlan.t) (current next_activity : Activity.t)
    (buffer : Q) : ValidationIssue :=
  {| severity := "high";
     category := "timing";
     day_number := Some (DayPlan.day_number day);
     problem := [Lit "Only "; FmtNum ".0f" (buffer * 60)%Q; Lit " minutes between '";
                 FmtStr (Activity.name current); Lit "' and '";
                 FmtStr (Activity.name next_activity); Lit "'"];
     suggestion := [Lit "Add at least 30 minutes buffer for travel/breaks"];
     affected_activities := [Activity.name current; Activity.name next_activity] |}.

Definition overlap_issue (day : DayPlan.t) (current next_activity : Activity.t)
    : ValidationIssue :=
  {| severity := "critical";
     category := "timing";
     day_number := Some (DayPlan.day_number day);
     problem := [Lit "Activities overlap: '"; FmtStr (Activity.name current);
                 Lit "' ends after '"; FmtStr (Activity.name next_activity);
                 Lit "' starts"];
     suggestion := [Lit "Reschedule one of these activities"];
     affected_activities := [Activity.name current; Activity.name next_activity] |}.

(** The body of the loop over consecutive activities: two independent [if]s. *)
Definition pair_issues (day : DayPlan.t) (current next_activity : Activity.t)
    : Result (list ValidationIssue) :=
  buffer ← buffer_time current next_activity;
  Ok ((if Qlt_bool buffer MIN_TIME_BETWEEN_ACTIVITIES
       then [buffer_issue day current next_activity buffer] else [])
      ++ (if Qlt_bool buffer 0
          then [overlap_issue day current next_activity] else [])).

(** [for i in range(len(activities) - 1)] *)
Fixpoint consecutive_issues (day : DayPlan.t) (activities : list Activity.t)
    : Result (list ValidationIssue) :=
  match activities with
  | current :: rest =>
      match rest with
      | next_activity :: _ =>
          here ← pair_issues day current next_activity;
          later ← consecutive_issues day rest;
          Ok (here ++ later)
      | [] => Ok []
      end
  | [] => Ok []
  end.

Definition long_activity_issues (day : DayPlan.t) : list ValidationIssue :=
  flat_map (fun activity =>
    if Qlt_bool MAX_ACTIVITY_DURATION (Activity.duration_hours activity) then
      [ {| severity := "medium";
           category := "timing";
           day_number := Some (DayPlan.day_number day);
           problem := [Lit "Activity '"; FmtStr (Activity.name activity);
                       Lit "' is scheduled for ";
                       FmtNum "" (Activity.duration_hours activity); Lit " hours"];
           suggestion := [Lit "Consider splitting into multiple shorter activities or reducing duration"];
           affected_activities := [Activity.name activity] |} ]
    else []) (DayPlan.activities day).

(** The body of the loop over the days. *)
Definition timing_of_day (day : DayPlan.t) : Result (list ValidationIssue) :=
  pairs ← consecutive_issues day (DayPlan.activities day);
  Ok (activity_count_issues day ++ pairs ++ long_activity_issues day).

(** A [for] loop that extends one list of issues, stopped by the first
    exception. *)
Fixpoint for_each {A B} (f : A -> Result (list B)) (l : list A) : Result (list B) :=
  match l with
  | [] => Ok []
  | x :: l' =>
      here ← f x;
      later ← for_each f l';
      Ok (here ++ later)
  end.

(** Iterating over [plan.daily_plans] raises [TypeError] when it is [None]. *)
Definition iter_daily_plans (plan : TravelPlan.t) : Result (list DayPlan.t) :=
  match TravelPlan.daily_plans plan with
  | Some days => Ok days
  | None => Raise TypeError
  end.

Definition _validate_timing (plan : TravelPlan.t) : Result (list ValidationIssue) :=
  days ← iter_daily_plans plan;
  for_each timing_of_day days.

(** ** Check 3: daily balance *)

(** Python's [sum]: a left fold from 0. *)
Definition py_sum (l : list Q) : Q := fold_left Qplus l 0%Q.

Definition balance_of_day (day : DayPlan.t) : list ValidationIssue :=
  let activities := DayPlan.activities day in
  let total_hours := py_sum (map Activity.duration_hours activities) in
  let categories := map Activity.category activities in
  (if Qlt_bool 12 total_hours then
     [ {| severity := "high";
          category := "logistics";
          day_number := Some (DayPlan.day_number day);
          problem := [Lit "Day "; FmtInt (DayPlan.day_number day); Lit " has ";
                      FmtNum ".1f" total_hours;
                      Lit " hours of activities (over 12 hours)"];
          suggestion := [Lit "Reduce number of activities or shorten durations to avoid exhaustion"];
          affected_activities := names activities |} ]
   else if Qlt_bool total_hours 4 then
     [ {| severity := "low";
          category := "logistics";
          day_number := Some (DayPlan.day_number day);
          problem := [Lit "Day "; FmtInt (DayPlan.day_number day); Lit " only has ";
                      FmtNum ".1f" total_hours; Lit " hours of activities"];
          suggestion := [Lit "Add more activities to make better use of the day"];
          affected_activities := names activities |} ]
   else [])
  ++ (if (4 <? length (List.filter (String.eqb "dining") categories))%nat then
        [ {| severity := "low";
             category := "logistics";
             day_number := Some (DayPlan.day_number day);
             problem := [Lit "Day "; FmtInt (DayPlan.day_number day);
                         Lit " has too many dining activities"];
             suggestion := [Lit "Balance with more sightseeing or cultural activities"];
             affected_activities :=
               names (List.filter
                        (fun a => String.eqb (Activity.category a) "dining")
                        activities) |} ]
      else []).

Definition _validate_daily_balance (plan : TravelPlan.t)
    : Result (list ValidationIssue) :=
  days ← iter_daily_plans plan;
  Ok (flat_map balance_of_day days).

(** ** Check 4: feasibility of activities *)

Definition ascii_lower (c : ascii) : ascii :=
  let n := nat_of_ascii c in
  if (65 <=? n)%nat && (n <=? 90)%nat then ascii_of_nat (n + 32) else c.

Fixpoint lower (s : string) : string :=
  match s with
  | EmptyString => EmptyString
  | String c r => String (ascii_lower c) (lower r)
  end.

(** [needle in hay] *)
Fixpoint contains (needle hay : string) : bool :=
  String.prefix needle hay ||
  match hay with
  | EmptyString => false
  | String _ r => contains needle r
  end.

Definition feasibility_of_activity (day : DayPlan.t) (activity : Activity.t)
    : list ValidationIssue :=
  (if Qlt_bool (Activity.estimated_cost activity) 0 then
     [ {| severity := "critical";
          category := "budget";
          day_number := Some (DayPlan.day_number day);
          problem := [Lit "Activity '"; FmtStr (Activity.name activity);
                      Lit "' has negative cost $";
                      FmtNum "" (Activity.estimated_cost activity)];
          suggestion := [Lit "Correct the cost estimate"];
          affected_activities := [Activity.name activity] |} ]
   else [])
  ++ (if Qeq_bool (Activity.estimated_cost activity) 0
         && contains "museum" (lower (Activity.name activity)) then
        [ {| severity := "medium";
             category := "budget";
             day_number := Some (DayPlan.day_number day);
             problem := [Lit "Activity '"; FmtStr (Activity.name activity);
                         Lit "' listed as free but may require admission"];
             suggestion := [Lit "Verify if entrance fee is required"];
             affected_activities := [Activity.name activity] |} ]
      else []).

Definition _validate_activity_feasibility (plan : TravelPlan.t)
    : Result (list ValidationIssue) :=
  days ← iter_daily_plans plan;
  Ok (flat_map (fun day =>
        flat_map (feasibility_of_activity day) (DayPlan.activities day)) days).

(** ** Check 5: cost distribution *)

Definition distribution_of_day (avg_cost : Q) (day : DayPlan.t)
    : list ValidationIssue :=
  if Qlt_bool (avg_cost * (1 + MAX_DAILY_COST_VARIANCE)) (DayPlan.total_cost day) then
    let over_amount := (DayPlan.total_cost day - avg_cost)%Q in
    [ {| severity := "low";
         category := "budget";
         day_number := Some (DayPlan.day_number day);
         problem := [Lit "Day "; FmtInt (DayPlan.day_number day); Lit " cost $";
                     FmtNum ".2f" (DayPlan.total_cost day); Lit " is $";
                     FmtNum ".2f" over_amount; Lit " above average"];
         suggestion := [Lit "Consider redistributing expensive activities across multiple days"];
         affected_activities := [] |} ]
  else [].

(** [if not plan.daily_plans: return issues] covers both [None] and the empty
    list, so the division by [len(daily_costs)] is never by zero. *)
Definition _validate_cost_distribution (plan : TravelPlan.t)
    : Result (list ValidationIssue) :=
  match TravelPlan.daily_plans plan with
  | None | Some [] => Ok []
  | Some days =>
      let daily_costs := map DayPlan.total_cost days in
      let avg_cost := (py_sum daily_costs / inject_Z (Z.of_nat (length daily_costs)))%Q in
      Ok (flat_map (distribution_of_day avg_cost) days)
  end.

(** ** Warnings *)

(** [not d or not d.get(key)] for a dictionary attribute that may be [None]. *)
Definition missing_entry (d : option (gmap string PyVal)) (key : string) : bool :=
  match d with
  | None => true
  | Some m => bool_decide (m = ∅) || negb (truthy (default PyNone (m !! key)))
  end.

Definition _check_warnings (plan : TravelPlan.t) : Result (list fstring) :=
  let w1 :=
    if missing_entry (TravelPlan.accommodation plan) "name"
    then [[Lit "No specific accommodation recommended - user should research options"]]
    else [] in
  let w2 :=
    if missing_entry (TravelPlan.transportation plan) "daily"
    then [[Lit "Transportation details are minimal - add more specific guidance"]]
    else [] in
  days ← iter_daily_plans plan;
  let total_activities :=
    fold_left Z.add (map (fun day => Z.of_nat (length (DayPlan.activities day))) days) 0%Z in
  let activities_with_sources :=
    Z.of_nat (length (flat_map (fun day =>
      List.filter (fun activity => negb (String.eqb (Activity.source activity) ""))
                  (DayPlan.activities day)) days)) in
  let w3 :=
    if Qlt_bool (inject_Z activities_with_sources) (inject_Z total_activities * (5 # 10))
    then [[Lit "Only "; FmtInt activities_with_sources; Lit "/";
           FmtInt total_activities; Lit " activities have source attribution"]]
    else [] in
  Ok (w1 ++ w2 ++ w3).

(** ** Score and status *)

Definition severity_penalties : gmap string Z :=
  <["critical" := 20%Z]> (<["high" := 10%Z]> (<["medium" := 5%Z]> (<["low" := 2%Z]> ∅))).

Definition _calculate_quality_score (plan : TravelPlan.t)
    (issues : list ValidationIssue) : Q :=
  let base_score :=
    fold_left (fun base_score issue =>
                 (base_score - inject_Z (default 0%Z (severity_penalties !! severity issue)))%Q)
              issues 100%Q in
  Qmax 0 base_score.

(** The classification at the end of [_validate_single_plan]. *)
Definition determine_status (issues : list ValidationIssue) : string :=
  let critical_issues := List.filter (fun i => String.eqb (severity i) "critical") issues in
  let high_issues := List.filter (fun i => String.eqb (severity i) "high") issues in
  match critical_issues with
  | _ :: _ => "NEEDS_REVISION"
  | [] =>
      match high_issues with
      | _ :: _ => "APPROVED_WITH_WARNINGS"
      | [] => "APPROVED"
      end
  end.

Definition _validate_single_plan (plan : TravelPlan.t)
    (user_requirements : gmap string PyVal) : Result ValidationResult :=
  i1 ← _validate_budget plan user_requirements;
  i2 ← _validate_timing plan;
  i3 ← _validate_daily_balance plan;
  i4 ← _validate_activity_feasibility plan;
  i5 ← _validate_cost_distribution plan;
  let issues := i1 ++ i2 ++ i3 ++ i4 ++ i5 in
  warnings ← _check_warnings plan;
  let score := _calculate_quality_score plan issues in
  let status := determine_status issues in
  Ok {| plan_id := TravelPlan.plan_id plan;
        status := status;
        issues := issues;
        warnings := warnings;
        score := score |}.

(** ** The batch driver *)

Fixpoint validate_plans (plans : list TravelPlan.t)
    (user_requirements : gmap string PyVal) : Result (list ValidationResult) :=
  match plans with
  | [] => Ok []
  | plan :: rest =>
      result ← _validate_single_plan plan user_requirements;
      validation_results ← validate_plans rest user_requirements;
      Ok (result :: validation_results)
  end.

(** ** Vocabulary of the properties *)

(** Issues of one severity and category in a list. *)
Definition is_kind (sev cat : string) (i : ValidationIssue) : bool :=
  String.eqb (severity i) sev && String.eqb (category i) cat.

Definition count_kind (sev cat : string) (l : list ValidationIssue) : nat :=
  length (List.filter (is_kind sev cat) l).


(** Inputs on which the timing check cannot raise: every time parses and
    every duration is within a million hours. *)
Definition well_timed (a : Activity.t) : Prop :=
  is_Ok (strptime (Activity.time a)) /\
  (- (1000000) <= Activity.duration_hours a <= 1000000)%Q.

Definition well_formed (plan : TravelPlan.t) : Prop :=
  exists days,
    TravelPlan.daily_plans plan = Some days /\
    Forall (fun day => Forall well_timed (DayPlan.activities day)) days.


(** The penalty table and the status rule as the specification words them. *)
Definition penalty (sev : string) : Z :=
  if String.eqb sev "critical" then 20
  else if String.eqb sev "high" then 10
  else if String.eqb sev "medium" then 5
  else if String.eqb sev "low" then 2
  else 0.

Definition total_penalty (l : list ValidationIssue) : Z :=
  fold_right Z.add 0%Z (map (fun i => penalty (severity i)) l).

Definition status_of_severities (sevs : list string) : string :=
  if existsb (String.eqb "critical") sevs then "NEEDS_REVISION"
  else if existsb (String.eqb "high") sevs then "APPROVED_WITH_WARNINGS"
  else "APPROVED".

(** The value [user_requirements.get('budget', 0)]. *)
Definition requirements_budget (user_requirements : gmap string PyVal) : PyVal :=
  default (PyNum 0) (user_requirements !! "budget").

(** A plan without what only the warnings pass reads: the accommodation and
    transportation records and the source of each activity. *)
Definition without_source (a : Activity.t) : Activity.t :=
  Activity.mk (Activity.time a) (Activity.name a) (Activity.location a)
    (Activity.description a) (Activity.estimated_cost a)
    (Activity.duration_hours a) (Activity.category a) "".

Definition day_without_sources (d : DayPlan.t) : DayPlan.t :=
  DayPlan.mk (DayPlan.day_number d) (DayPlan.date d) (DayPlan.theme d)
    (map without_source (DayPlan.activities d)) (DayPlan.total_cost d)
    (DayPlan.notes d).

Definition without_warning_inputs (p : TravelPlan.t) : TravelPlan.t :=
  TravelPlan.mk (TravelPlan.plan_id p) (TravelPlan.plan_name p)
    (TravelPlan.theme p) (TravelPlan.total_cost p) (TravelPlan.cost_breakdown p)
    (option_map (map day_without_sources) (TravelPlan.daily_plans p))
    None None (TravelPlan.key_highlights p) (TravelPlan.pace p).

(** Two plans that differ at most in those. *)
Definition differ_in_warning_inputs_only (p1 p2 : TravelPlan.t) : Prop :=
  without_warning_inputs p1 = without_warning_inputs p2.

(** What a result says besides its warnings. *)
Definition verdict (r : ValidationResult) : string * string * list ValidationIssue * Q :=
  (plan_id r, status r, issues r, score r).

(** ** Sample itineraries *)

Definition activity_at (time name : string) (duration_hours : Q) : Activity.t :=
  Activity.mk time name "Paris" "" 25 duration_hours "sightseeing" "reddit".

(** Three activities with an hour between them. *)
Definition quiet_day : DayPlan.t :=
  DayPlan.mk 1 "2025-06-01" "Highlights"
    [activity_at "09:00" "Eiffel Tower" 2;
     activity_at "12:00" "Louvre" 2;
     activity_at "15:00" "Montmartre" 2] 75 "".

Definition plan_of (id : string) (total_cost : Q) (days : option (list DayPlan.t))
    : TravelPlan.t :=
  TravelPlan.mk id "Sample" "classic" total_cost ∅ days
    (Some (<["name" := PyStr "Hotel du Nord"]> ∅))
    (Some (<["daily" := PyStr "Metro"]> ∅))
    [] "moderate".

Definition budget_of (b : Q) : gmap string PyVal :=
  <["budget" := PyNum b]> (<["duration_days" := PyNum 3]> ∅).

(** What a validation returned, for samples that are known to validate. *)
Definition empty_result : ValidationResult :=
  {| plan_id := ""; status := ""; issues := []; warnings := []; score := 0 |}.

Definition returned (r : Result ValidationResult) : ValidationResult :=
  match r with
  | Ok res => res
  | Raise _ => empty_result
  end.

(** Over budget by 10.1%: one critical issue. *)
Definition over_budget_plan : TravelPlan.t := plan_of "A" 1101 (Some [quiet_day]).

Definition over_budget_result : ValidationResult :=
  Eval vm_compute in returned (_validate_single_plan over_budget_plan (budget_of 1000)).

(** Within budget, with two gaps of a quarter of an hour: two high issues. *)
Definition rushed_day : DayPlan.t :=
  DayPlan.mk 1 "2025-06-01" "Highlights"
    [activity_at "09:00" "Eiffel Tower" 2;
     activity_at "11:15" "Louvre" 2;
     activity_at "13:30" "Montmartre" 2] 75 "".

Definition rushed_plan : TravelPlan.t := plan_of "B" 1000 (Some [rushed_day]).

Definition rushed_result : ValidationResult :=
  Eval vm_compute in returned (_validate_single_plan rushed_plan (budget_of 1000)).

(** The overlap of the specification: 09:00 for two hours, then 10:30. *)
Definition tower : Activity.t := activity_at "09:00" "Eiffel Tower" 2.
Definition louvre : Activity.t := activity_at "10:30" "Louvre" 1.
Definition montmartre : Activity.t := activity_at "12:00" "Montmartre" 2.

Definition overlap_day : DayPlan.t :=
  DayPlan.mk 1 "2025-06-01" "Highlights" [tower; louvre; montmartre] 75 "".

Definition overlap_plan : TravelPlan.t := plan_of "A" 1000 (Some [overlap_day]).

(** A time that is no wall-clock time. *)
Definition brunch : Activity.t := activity_at "9am" "Brunch" 1.

Definition unparsable_day : DayPlan.t :=
  DayPlan.mk 1 "2025-06-01" "Highlights" [brunch; louvre; montmartre] 75 "".

Definition unparsable_plan : TravelPlan.t := plan_of "A" 1000 (Some [unparsable_day]).

(** Days of eight and of nine one-hour activities, an hour and a half apart. *)
Definition eight_activities : list Activity.t :=
  [activity_at "08:00" "a1" 1; activity_at "09:30" "a2" 1;
   activity_at "11:00" "a3" 1; activity_at "12:30" "a4" 1;
   activity_at "14:00" "a5" 1; activity_at "15:30" "a6" 1;
   activity_at "17:00" "a7" 1; activity_at "18:30" "a8" 1].

Definition eight_day : DayPlan.t :=
  DayPlan.mk 1 "2025-06-01" "Full" eight_activities 200 "".

Definition nine_day : DayPlan.t :=
  DayPlan.mk 1 "2025-06-01" "Packed"
    (eight_activities ++ [activity_at "20:00" "a9" 1]) 225 "".

(** A plan object without [daily_plans]. *)
Definition malformed_plan : TravelPlan.t := plan_of "B" 1000 None.

Definition quiet_plan (id : string) : TravelPlan.t := plan_of id 1000 (Some [quiet_day]).

(** The quiet plan again, without a hotel name, without daily transport and
    without sources. *)
Definition anonymous_day : DayPlan.t :=
  DayPlan.mk 1 "2025-06-01" "Highlights"
    [Activity.mk "09:00" "Eiffel Tower" "Paris" "" 25 2 "sightseeing" "";
     Activity.mk "12:00" "Louvre" "Paris" "" 25 2 "sightseeing" "";
     Activity.mk "15:00" "Montmartre" "Paris" "" 25 2 "sightseeing" ""] 75 "".

Definition bare_plan : TravelPlan.t :=
  TravelPlan.mk "A" "Sample" "classic" 1000 ∅ (Some [anonymous_day])
    (Some (<["type" := PyStr "hotel"]> ∅)) None [] "moderate".

(** ** Vocabulary of the further properties *)

(** The severities and categories the validator writes. *)
Definition known_severity (i : ValidationIssue) : Prop :=
  In (severity i) ["critical"; "high"; "medium"; "low"].

Definition known_category (i : ValidationIssue) : Prop :=
  In (category i) ["budget"; "timing"; "logistics"].

(** The statuses, from best to worst. *)
Definition status_rank (status : string) : nat :=
  if String.eqb status "APPROVED" then 0
  else if String.eqb status "APPROVED_WITH_WARNINGS" then 1
  else 2.

(** The three defects that are critical. *)
Definition over_budget (plan : TravelPlan.t) (reqs : gmap string PyVal) : Prop :=
  exists b, requirements_budget reqs = PyNum b /\
            (b * (110 # 100) < TravelPlan.total_cost plan)%Q.

Definition has_overlap (days : list DayPlan.t) : Prop :=
  exists day pre cur nxt post buf,
    In day days /\
    DayPlan.activities day = pre ++ cur :: nxt :: post /\
    buffer_time cur nxt = Ok buf /\ (buf < 0)%Q.

Definition has_negative_cost (days : list DayPlan.t) : Prop :=
  exists day activity,
    In day days /\ In activity (DayPlan.activities day) /\
    (Activity.estimated_cost activity < 0)%Q.

(** The three defects that are high. *)
Definition has_crowded_day (days : list DayPlan.t) : Prop :=
  exists day, In day days /\ (8 < length (DayPlan.activities day))%nat.

Definition has_short_buffer (days : list DayPlan.t) : Prop :=
  exists day pre cur nxt post buf,
    In day days /\
    DayPlan.activities day = pre ++ cur :: nxt :: post /\
    buffer_time cur nxt = Ok buf /\ (buf < 5 # 10)%Q.

Definition has_overloaded_day (days : list DayPlan.t) : Prop :=
  exists day,
    In day days /\
    (12 < py_sum (map Activity.duration_hours (DayPlan.activities day)))%Q.

(** [avg_cost] of the cost-distribution check. *)
Definition average_daily_cost (days : list DayPlan.t) : Q :=
  (py_sum (map DayPlan.total_cost days)
   / inject_Z (Z.of_nat (length (map DayPlan.total_cost days))))%Q.



(** All the activities of a plan, day after day. *)
Definition all_activities (days : list DayPlan.t) : list Activity.t :=
  flat_map DayPlan.activities days.


Definition free_museum (a : Activity.t) : bool :=
  Qeq_bool (Activity.estimated_cost a) 0
  && contains "museum" (lower (Activity.name a)).



(** A dictionary attribute that holds a truthy value under a key. *)
Definition has_entry (d : option (gmap string PyVal)) (key : string) : Prop :=
  exists m v, d = Some m /\ m !! key = Some v /\ truthy v = true.

Definition sourced (a : Activity.t) : bool :=
  negb (String.eqb (Activity.source a) "").

(** A plan reduced to what the validator reads: names of the plan, themes,
    pace, highlights, the cost breakdown, dates, notes, locations and
    descriptions are blanked. *)
Definition read_of_activity (a : Activity.t) : Activity.t :=
  Activity.mk (Activity.time a) (Activity.name a) "" ""
    (Activity.estimated_cost a) (Activity.duration_hours a)
    (Activity.category a) (Activity.source a).

Definition read_of_day (d : DayPlan.t) : DayPlan.t :=
  DayPlan.mk (DayPlan.day_number d) "" ""
    (map read_of_activity (DayPlan.activities d)) (DayPlan.total_cost d) "".

Definition read_of_plan (p : TravelPlan.t) : TravelPlan.t :=
  TravelPlan.mk (TravelPlan.plan_id p) "" "" (TravelPlan.total_cost p) ∅
    (option_map (map read_of_day) (TravelPlan.daily_plans p))
    (TravelPlan.accommodation p) (TravelPlan.transportation p) [] "".

(** ** Plans as dictionaries ([refinement_agent.py], [planner_agent.py])

    The refinement and the planner agents move plans through JSON-like
    Python values.  Such a value is a [Json]; [dict]s are finite maps.  The
    records of the itinerary model are typed, so a conversion that would put
    a value of another type in a field (a number as a name, say), which
    Python allows, has the outcome [Unmodelled]: nothing is stated about it.
    [Done] and [Throws] are what the Python function returns and raises. *)

Module Py.
Inductive exn : Type :=
| KeyError (key : string)
| TypeError
| AttributeError.
End Py.

Inductive Outcome (A : Type) : Type :=
| Done (a : A)
| Throws (e : Py.exn)
| Unmodelled.
Arguments Done {A} a.
Arguments Throws {A} e.
Arguments Unmodelled {A}.

#[export] Instance Outcome_ret : MRet Outcome := fun _ a => Done a.
#[export] Instance Outcome_bind : MBind Outcome := fun _ _ f m =>
  match m with
  | Done a => f a
  | Throws e => Throws e
  | Unmodelled => Unmodelled
  end.
#[export] Instance Outcome_fmap : FMap Outcome := fun _ _ f m =>
  match m with
  | Done a => Done (f a)
  | Throws e => Throws e
  | Unmodelled => Unmodelled
  end.

#[warnings="-register-all"]
Inductive Json : Type :=
| JNull
| JBool (b : bool)
| JNum (x : Q)
| JStr (s : string)
| JList (l : list Json)
| JDict (d : gmap string Json).

(** [obj[key]] for a string key *)
Definition subscript (obj : Json) (key : string) : Outcome Json :=
  match obj with
  | JDict d =>
      match d !! key with
      | Some v => Done v
      | None => Throws (Py.KeyError key)
      end
  | _ => Throws Py.TypeError
  end.

(** [obj.get(key, default)] *)
Definition get (obj : Json) (key : string) (fallback : Json) : Outcome Json :=
  match obj with
  | JDict d => Done (default fallback (d !! key))
  | _ => Throws Py.AttributeError
  end.

Fixpoint characters (s : string) : list Json :=
  match s with
  | EmptyString => []
  | String c r => JStr (String c EmptyString) :: characters r
  end.

(** [for x in obj]: the items of a list, the characters of a string, the
    keys of a dictionary. *)
Definition iterate (obj : Json) : Outcome (list Json) :=
  match obj with
  | JList l => Done l
  | JStr s => Done (characters s)
  | JDict d => Done (JStr <$> (map_to_list d).*1)
  | _ => Throws Py.TypeError
  end.

(** Reading a value into a typed field. *)
Definition as_str (v : Json) : Outcome string :=
  match v with
  | JStr s => Done s
  | _ => Unmodelled
  end.

Definition as_num (v : Json) : Outcome Q :=
  match v with
  | JNum x => Done x
  | _ => Unmodelled
  end.

Definition as_int (v : Json) : Outcome Z :=
  match v with
  | JNum x => if Qeq_bool x (inject_Z (Qfloor x)) then Done (Qfloor x) else Unmodelled
  | _ => Unmodelled
  end.

Definition as_strs (v : Json) : Outcome (list string) :=
  match v with
  | JList l => mapM as_str l
  | _ => Unmodelled
  end.

Definition scalar_of_json (v : Json) : option PyVal :=
  match v with
  | JNull => Some PyNone
  | JStr s => Some (PyStr s)
  | JNum x => Some (PyNum x)
  | _ => None
  end.

Definition json_of_scalar (v : PyVal) : Json :=
  match v with
  | PyNone => JNull
  | PyStr s => JStr s
  | PyNum x => JNum x
  end.

Definition number_of_json (v : Json) : option Q :=
  match v with
  | JNum x => Some x
  | _ => None
  end.

(** A dictionary attribute of a plan ([None] or a dictionary of scalars). *)
Definition as_record (v : Json) : Outcome (option (gmap string PyVal)) :=
  match v with
  | JNull => Done None
  | JDict d =>
      if bool_decide (map_Forall (fun _ x => is_Some (scalar_of_json x)) d)
      then Done (Some (omap scalar_of_json d))
      else Unmodelled
  | _ => Unmodelled
  end.

Definition json_of_record (r : option (gmap string PyVal)) : Json :=
  match r with
  | None => JNull
  | Some m => JDict (json_of_scalar <$> m)
  end.

(** [cost_breakdown]: a dictionary of numbers. *)
Definition as_costs (v : Json) : Outcome (gmap string Q) :=
  match v with
  | JDict d =>
      if bool_decide (map_Forall (fun _ x => is_Some (number_of_json x)) d)
      then Done (omap number_of_json d)
      else Unmodelled
  | _ => Unmodelled
  end.

(** *** [RefinementAgent._plan_to_dict] *)

Definition activity_to_dict (act : Activity.t) : Json :=
  JDict (<["time" := JStr (Activity.time act)]>
        (<["name" := JStr (Activity.name act)]>
        (<["location" := JStr (Activity.location act)]>
        (<["description" := JStr (Activity.description act)]>
        (<["estimated_cost" := JNum (Activity.estimated_cost act)]>
        (<["duration_hours" := JNum (Activity.duration_hours act)]>
        (<["category" := JStr (Activity.category act)]>
        (<["source" := JStr (Activity.source act)]> ∅)))))))).

Definition day_to_dict (day : DayPlan.t) : Json :=
  JDict (<["day_number" := JNum (inject_Z (DayPlan.day_number day))]>
        (<["date" := JStr (DayPlan.date day)]>
        (<["theme" := JStr (DayPlan.theme day)]>
        (<["total_cost" := JNum (DayPlan.total_cost day)]>
        (<["notes" := JStr (DayPlan.notes day)]>
        (<["activities" := JList (map activity_to_dict (DayPlan.activities day))]>
         ∅)))))).

Definition _plan_to_dict (plan : TravelPlan.t) : Outcome Json :=
  days ← match TravelPlan.daily_plans plan with
         | Some days => Done days
         | None => Throws Py.TypeError
         end;
  Done (JDict
    (<["plan_id" := JStr (TravelPlan.plan_id plan)]>
    (<["plan_name" := JStr (TravelPlan.plan_name plan)]>
    (<["theme" := JStr (TravelPlan.theme plan)]>
    (<["pace" := JStr (TravelPlan.pace plan)]>
    (<["total_cost" := JNum (TravelPlan.total_cost plan)]>
    (<["cost_breakdown" := JDict (JNum <$> TravelPlan.cost_breakdown plan)]>
    (<["accommodation" := json_of_record (TravelPlan.accommodation plan)]>
    (<["transportation" := json_of_record (TravelPlan.transportation plan)]>
    (<["key_highlights" := JList (JStr <$> TravelPlan.key_highlights plan)]>
    (<["daily_plans" := JList (map day_to_dict days)]> ∅))))))))))).

(** *** [RefinementAgent._dict_to_plan] *)

Definition activity_of_dict (act : Json) : Outcome Activity.t :=
  time ← subscript act "time" ≫= as_str;
  name ← subscript act "name" ≫= as_str;
  location ← subscript act "location" ≫= as_str;
  description ← subscript act "description" ≫= as_str;
  estimated_cost ← subscript act "estimated_cost" ≫= as_num;
  duration_hours ← subscript act "duration_hours" ≫= as_num;
  category ← subscript act "category" ≫= as_str;
  source ← get act "source" (JStr "") ≫= as_str;
  Done (Activity.mk time name location description estimated_cost
          duration_hours category source).

Definition day_of_dict (day_data : Json) : Outcome DayPlan.t :=
  acts ← subscript day_data "activities" ≫= iterate;
  activities ← mapM activity_of_dict acts;
  day_number ← subscript day_data "day_number" ≫= as_int;
  date ← subscript day_data "date" ≫= as_str;
  theme ← subscript day_data "theme" ≫= as_str;
  total_cost ← subscript day_data "total_cost" ≫= as_num;
  notes ← get day_data "notes" (JStr "") ≫= as_str;
  Done (DayPlan.mk day_number date theme activities total_cost notes).

Definition _dict_to_plan (plan_dict : Json) (plan_id : string)
    : Outcome TravelPlan.t :=
  days ← subscript plan_dict "daily_plans" ≫= iterate;
  daily_plans ← mapM day_of_dict days;
  plan_name ← subscript plan_dict "plan_name" ≫= as_str;
  theme ← subscript plan_dict "theme" ≫= as_str;
  total_cost ← subscript plan_dict "total_cost" ≫= as_num;
  cost_breakdown ← subscript plan_dict "cost_breakdown" ≫= as_costs;
  accommodation ← subscript plan_dict "accommodation" ≫= as_record;
  transportation ← subscript plan_dict "transportation" ≫= as_record;
  key_highlights ← subscript plan_dict "key_highlights" ≫= as_strs;
  pace ← subscript plan_dict "pace" ≫= as_str;
  Done (TravelPlan.mk plan_id plan_name theme total_cost cost_breakdown
          (Some daily_plans) accommodation transportation key_highlights pace).

(** *** [PlannerAgent._parse_plan_json]

    [theme_config] is one of the three dictionaries that [create_plans]
    writes out, so its keys are there and its values have their types. *)

Module ThemeConfig.
Record t : Type := mk {
    id : string;
    name : string;
    theme : string;
    budget_allocation : Q;
    accommodation_level : string;
    dining_style : string;
    pace : string;
    focus : string
}.
End ThemeConfig.

(** The operand of [day_cost += act_data['estimated_cost']]: adding a string,
    [None], a list or a dictionary to a number raises [TypeError]. *)
Definition as_addend (v : Json) : Outcome Q :=
  match v with
  | JNum x => Done x
  | JBool _ => Unmodelled
  | _ => Throws Py.TypeError
  end.

Definition parse_activity (act_data : Json) : Outcome Activity.t :=
  time ← subscript act_data "time";
  name ← subscript act_data "name";
  location ← subscript act_data "location";
  description ← subscript act_data "description";
  estimated_cost ← subscript act_data "estimated_cost";
  duration_hours ← subscript act_data "duration_hours";
  category ← subscript act_data "category";
  source ← subscript act_data "source";
  time ← as_str time;
  name ← as_str name;
  location ← as_str location;
  description ← as_str description;
  duration_hours ← as_num duration_hours;
  category ← as_str category;
  source ← as_str source;
  estimated_cost ← as_addend estimated_cost;
  Done (Activity.mk time name location description estimated_cost
          duration_hours category source).

(** The loop over the activities of a day, with [day_cost] so far. *)
Fixpoint parse_activities (acts : list Json) (day_cost : Q)
    : Outcome (list Activity.t * Q) :=
  match acts with
  | [] => Done ([], day_cost)
  | act_data :: rest =>
      activity ← parse_activity act_data;
      '(activities, total) ←
         parse_activities rest (day_cost + Activity.estimated_cost activity)%Q;
      Done (activity :: activities, total)
  end.

Definition parse_day (day_data : Json) : Outcome DayPlan.t :=
  acts ← subscript day_data "activities" ≫= iterate;
  '(activities, day_cost) ← parse_activities acts 0%Q;
  day_number ← subscript day_data "day_number";
  date ← subscript day_data "date";
  theme ← subscript day_data "theme";
  notes ← get day_data "notes" (JStr "");
  day_number ← as_int day_number;
  date ← as_str date;
  theme ← as_str theme;
  notes ← as_str notes;
  Done (DayPlan.mk day_number date theme activities day_cost notes).

(** The loop over the days, with [total_activities_cost] so far. *)
Fixpoint parse_days (days : list Json) (total_activities_cost : Q)
    : Outcome (list DayPlan.t * Q) :=
  match days with
  | [] => Done ([], total_activities_cost)
  | day_data :: rest =>
      day_plan ← parse_day day_data;
      '(daily_plans, total) ←
         parse_days rest (total_activities_cost + DayPlan.total_cost day_plan)%Q;
      Done (day_plan :: daily_plans, total)
  end.

Definition cost_breakdown_of (activities accommodation transportation : Q)
    : gmap string Q :=
  <["activities" := activities]>
    (<["accommodation" := accommodation]>
       (<["transportation" := transportation]> ∅)).

Definition _parse_plan_json (plan_json : Json) (theme_config : ThemeConfig.t)
    : Outcome TravelPlan.t :=
  days ← subscript plan_json "daily_plans" ≫= iterate;
  '(daily_plans, total_activities_cost) ← parse_days days 0%Q;
  accommodation ← subscript plan_json "accommodation";
  cost_per_night ← subscript accommodation "cost_per_night";
  total_nights ← subscript accommodation "total_nights";
  cost_per_night ← as_num cost_per_night;
  total_nights ← as_num total_nights;
  let accommodation_cost := (cost_per_night * total_nights)%Q in
  transportation ← subscript plan_json "transportation";
  estimated_daily_cost ← get transportation "estimated_daily_cost" (JNum 0);
  estimated_daily_cost ← as_num estimated_daily_cost;
  let transport_cost :=
    (estimated_daily_cost * inject_Z (Z.of_nat (length daily_plans)))%Q in
  let total_cost :=
    (total_activities_cost + accommodation_cost + transport_cost)%Q in
  key_highlights ← subscript plan_json "key_highlights";
  key_highlights ← as_strs key_highlights;
  accommodation ← as_record accommodation;
  transportation ← as_record transportation;
  Done (TravelPlan.mk (ThemeConfig.id theme_config) (ThemeConfig.name theme_config)
          (ThemeConfig.theme theme_config) total_cost
          (cost_breakdown_of total_activities_cost accommodation_cost transport_cost)
          (Some daily_plans) accommodation transportation key_highlights
          (ThemeConfig.pace theme_config)).

(** A response of the planner in the shape its prompt asks for. *)
Definition sample_activity_json (time name : string) (cost : Q) : Json :=
  JDict (<["time" := JStr time]> (<["name" := JStr name]>
        (<["location" := JStr "Paris"]> (<["description" := JStr ""]>
        (<["estimated_cost" := JNum cost]> (<["duration_hours" := JNum 2]>
        (<["category" := JStr "sightseeing"]>
        (<["source" := JStr "Reddit: Paris in three days"]> ∅)))))))).

Definition sample_plan_json : Json :=
  JDict (<["daily_plans" := JList
            [JDict (<["day_number" := JNum 1]> (<["date" := JStr "2025-06-01"]>
                   (<["theme" := JStr "Highlights"]>
                   (<["activities" := JList
                        [sample_activity_json "09:00" "Eiffel Tower" 25;
                         sample_activity_json "12:00" "Louvre" 17;
                         sample_activity_json "15:00" "Montmartre" 0]]> ∅))))]]>
        (<["accommodation" := JDict (<["name" := JStr "Hotel du Nord"]>
                                    (<["cost_per_night" := JNum 80]>
                                    (<["total_nights" := JNum 3]> ∅)))]>
        (<["transportation" := JDict (<["daily" := JStr "Metro"]>
                                     (<["estimated_daily_cost" := JNum 10]> ∅))]>
        (<["key_highlights" := JList [JStr "Eiffel Tower"]]> ∅)))).

Definition balanced_theme : ThemeConfig.t :=
  ThemeConfig.mk "B" "Paris Balanced Adventure" "balanced" 1000 "mid-range"
    "mixed" "moderate" "Best mix of comfort and authentic experiences".

Definition parsed (o : Outcome TravelPlan.t) : TravelPlan.t :=
  match o with
  | Done p => p
  | _ => plan_of "" 0 None
  end.

Definition sample_parsed_plan : TravelPlan.t :=
  Eval vm_compute in parsed (_parse_plan_json sample_plan_json balanced_theme).

(** *** [PlannerAgent._plan_to_dict]

    The planner has a serialiser of its own, used by [save_plans].  It lists
    the keys in another order and copies the activities with
    [dataclasses.asdict]. *)

Module PlannerAgent.

Definition asdict (act : Activity.t) : Json :=
  JDict (<["time" := JStr (Activity.time act)]>
        (<["name" := JStr (Activity.name act)]>
        (<["location" := JStr (Activity.location act)]>
        (<["description" := JStr (Activity.description act)]>
        (<["estimated_cost" := JNum (Activity.estimated_cost act)]>
        (<["duration_hours" := JNum (Activity.duration_hours act)]>
        (<["category" := JStr (Activity.category act)]>
        (<["source" := JStr (Activity.source act)]> ∅)))))))).

Definition day_to_dict (day : DayPlan.t) : Json :=
  JDict (<["day_number" := JNum (inject_Z (DayPlan.day_number day))]>
        (<["date" := JStr (DayPlan.date day)]>
        (<["theme" := JStr (DayPlan.theme day)]>
        (<["total_cost" := JNum (DayPlan.total_cost day)]>
        (<["notes" := JStr (DayPlan.notes day)]>
        (<["activities" := JList (map asdict (DayPlan.activities day))]> ∅)))))).

Definition _plan_to_dict (plan : TravelPlan.t) : Outcome Json :=
  days ← match TravelPlan.daily_plans plan with
         | Some days => Done days
         | None => Throws Py.TypeError
         end;
  Done (JDict
    (<["plan_id" := JStr (TravelPlan.plan_id plan)]>
    (<["plan_name" := JStr (TravelPlan.plan_name plan)]>
    (<["theme" := JStr (TravelPlan.theme plan)]>
    (<["total_cost" := JNum (TravelPlan.total_cost plan)]>
    (<["cost_breakdown" := JDict (JNum <$> TravelPlan.cost_breakdown plan)]>
    (<["pace" := JStr (TravelPlan.pace plan)]>
    (<["key_highlights" := JList (JStr <$> TravelPlan.key_highlights plan)]>
    (<["accommodation" := json_of_record (TravelPlan.accommodation plan)]>
    (<["transportation" := json_of_record (TravelPlan.transportation plan)]>
    (<["daily_plans" := JList (map day_to_dict days)]> ∅))))))))))).

End PlannerAgent.

(** A plan dictionary whose activities state no source: the same dictionary
    without the [source] keys. *)
Definition forget_source (act : Json) : Json :=
  match act with
  | JDict d => JDict (delete "source" d)
  | _ => act
  end.

Definition on_items (f : Json -> Json) (v : Json) : Json :=
  match v with
  | JList l => JList (map f l)
  | _ => v
  end.

Definition on_entry (key : string) (f : Json -> Json) (v : Json) : Json :=
  match v with
  | JDict d => JDict (alter f key d)
  | _ => v
  end.

Definition forget_sources_of_day : Json -> Json :=
  on_entry "activities" (on_items forget_source).

Definition forget_sources : Json -> Json :=
  on_entry "daily_plans" (on_items forget_sources_of_day).

(** * Properties *)

(** ** Generalities *)

Lemma Qlt_bool_reflect (x y : Q) : reflect (x < y)%Q (Qlt_bool x y).
Proof.
  unfold Qlt_bool. destruct (Qle_bool y x) eqn:E; simpl; constructor.
  - apply Qle_bool_iff in E. now apply Qle_not_lt.
  - apply Qnot_le_lt. intros H. apply Qle_bool_iff in H. congruence.
Qed.

Lemma Qlt_bool_true (x y : Q) : (x < y)%Q -> Qlt_bool x y = true.
Proof. intros H. now destruct (Qlt_bool_reflect x y). Qed.

Lemma py_div_nonzero (x y : Q) : ~ (y == 0)%Q -> py_div x y = Ok (x / y)%Q.
Proof.
  intros H. unfold py_div. destruct (Qeq_bool y 0) eqn:E; [|reflexivity].
  now apply Qeq_bool_iff in E.
Qed.

Lemma bind_Ok {A B} (m : Result A) (f : A -> Result B) (b : B) :
  m ≫= f = Ok b <-> exists a, m = Ok a /\ f a = Ok b.
Proof.
  destruct m as [a|e]; simpl; split.
  - intros H. now exists a.
  - now intros (a' & [= <-] & H).
  - discriminate.
  - now intros (a' & [=] & _).
Qed.

(** ** The budget check *)

(** The budget check returns a list whenever the budget is a number other
    than zero. *)
Lemma budget_check_returns (plan : TravelPlan.t) (reqs : gmap string PyVal) (b : Q) :
  requirements_budget reqs = PyNum b -> ~ (b == 0)%Q ->
  is_Ok (_validate_budget plan reqs).
Proof.
  intros Hb Hnz. unfold _validate_budget. fold (requirements_budget reqs).
  rewrite Hb. simpl.
  destruct (Qlt_bool _ _).
  - rewrite py_div_nonzero by assumption. simpl. eexists; reflexivity.
  - destruct (Qlt_bool _ _).
    + rewrite py_div_nonzero by assumption. simpl. eexists; reflexivity.
    + eexists; reflexivity.
Qed.



(** The boundary of the specification: against a budget of 1000, a total of
    1101 gives one critical/budget issue and nothing else, a total of 1099
    gives no issue. *)
Example budget_boundary_1101 :
  (fun l => (length l, count_kind "critical" "budget" l))
    <$> _validate_budget (plan_of "A" 1101 (Some [quiet_day])) (budget_of 1000)
  = Ok (1%nat, 1%nat).
Proof. reflexivity. Qed.

Example budget_boundary_1099 :
  _validate_budget (plan_of "A" 1099 (Some [quiet_day])) (budget_of 1000) = Ok [].
Proof. reflexivity. Qed.

(** C10: the division of the budget check is safe for a positive budget; a
    requirements mapping without the key 'budget' gives the budget 0, and
    then every plan with a positive total cost makes the over-budget branch
    divide by zero: the check and the validation of the plan raise
    [ZeroDivisionError] and return no result. *)
Theorem C10_missing_budget_divides_by_zero
    (plan : TravelPlan.t) (reqs : gmap string PyVal) :
  (forall b, requirements_budget reqs = PyNum b -> (0 < b)%Q ->
     is_Ok (_validate_budget plan reqs)) /\
  (reqs !! "budget" = None ->
     requirements_budget reqs = PyNum 0 /\
     ((0 < TravelPlan.total_cost plan)%Q ->
       _validate_budget plan reqs = Raise ZeroDivisionError /\
       _validate_single_plan plan reqs = Raise ZeroDivisionError)).
Proof.
  split.
  - intros b Hb Hpos. apply (budget_check_returns plan reqs b Hb). lra.
  - intros Hnone.
    assert (Hb : requirements_budget reqs = PyNum 0)
      by (unfold requirements_budget; now rewrite Hnone).
    split; [exact Hb|]. intros Hpos.
    assert (Hraise : _validate_budget plan reqs = Raise ZeroDivisionError).
    { unfold _validate_budget. fold (requirements_budget reqs). rewrite Hb. simpl.
      rewrite Qlt_bool_true by (unfold BUDGET_TOLERANCE; lra).
      reflexivity. }
    split; [exact Hraise|].
    unfold _validate_single_plan. now rewrite Hraise.
Qed.

Lemma C10_missing_budget_divides_by_zero_witness :
  _validate_budget (plan_of "A" 1000 (Some [quiet_day])) ∅ = Raise ZeroDivisionError /\
  _validate_single_plan (plan_of "A" 1000 (Some [quiet_day])) ∅ = Raise ZeroDivisionError.
Proof.
  apply (C10_missing_budget_divides_by_zero (plan_of "A" 1000 (Some [quiet_day])) ∅).
  - reflexivity.
  - reflexivity.
Defined.

(** ** The orchestration of one plan *)

(** A plan is validated exactly when its six passes return, and the result
    is assembled from what they return. *)
Lemma validate_single_plan_Ok (plan : TravelPlan.t) (reqs : gmap string PyVal)
    (res : ValidationResult) :
  _validate_single_plan plan reqs = Ok res <->
  exists i1 i2 i3 i4 i5 w,
    _validate_budget plan reqs = Ok i1 /\
    _validate_timing plan = Ok i2 /\
    _validate_daily_balance plan = Ok i3 /\
    _validate_activity_feasibility plan = Ok i4 /\
    _validate_cost_distribution plan = Ok i5 /\
    _check_warnings plan = Ok w /\
    res = {| plan_id := TravelPlan.plan_id plan;
             status := determine_status (i1 ++ i2 ++ i3 ++ i4 ++ i5);
             issues := i1 ++ i2 ++ i3 ++ i4 ++ i5;
             warnings := w;
             score := _calculate_quality_score plan (i1 ++ i2 ++ i3 ++ i4 ++ i5) |}.
Proof.
  unfold _validate_single_plan.
  destruct (_validate_budget plan reqs) as [i1|e1]; simpl;
    [destruct (_validate_timing plan) as [i2|e2]; simpl;
     [destruct (_validate_daily_balance plan) as [i3|e3]; simpl;
      [destruct (_validate_activity_feasibility plan) as [i4|e4]; simpl;
       [destruct (_validate_cost_distribution plan) as [i5|e5]; simpl;
        [destruct (_check_warnings plan) as [w|e6]; simpl|]|]|]|]|];
    (split;
     [ intros H; try discriminate H; injection H as <-;
       do 6 eexists; repeat split; reflexivity
     | intros (j1 & j2 & j3 & j4 & j5 & v & H1 & H2 & H3 & H4 & H5 & H6 & ->);
       congruence ]).
Qed.

Lemma timing_Ok_daily_plans (plan : TravelPlan.t) (l : list ValidationIssue) :
  _validate_timing plan = Ok l ->
  exists days, TravelPlan.daily_plans plan = Some days /\ for_each timing_of_day days = Ok l.
Proof.
  unfold _validate_timing, iter_daily_plans.
  destruct (TravelPlan.daily_plans plan) as [days|]; simpl; [|discriminate].
  intros H. now exists days.
Qed.

(** Once the budget and the timing checks have returned, nothing else can
    raise. *)
Lemma validate_single_plan_returns (plan : TravelPlan.t) (reqs : gmap string PyVal)
    (i1 i2 : list ValidationIssue) :
  _validate_budget plan reqs = Ok i1 -> _validate_timing plan = Ok i2 ->
  exists i3 i4 i5 w,
    _validate_daily_balance plan = Ok i3 /\
    _validate_activity_feasibility plan = Ok i4 /\
    _validate_cost_distribution plan = Ok i5 /\
    _check_warnings plan = Ok w.
Proof.
  intros _ H2. apply timing_Ok_daily_plans in H2 as (days & Hd & _).
  unfold _validate_daily_balance, _validate_activity_feasibility,
    _validate_cost_distribution, _check_warnings, iter_daily_plans.
  rewrite Hd. simpl.
  destruct days; do 4 eexists; repeat split; reflexivity.
Qed.

(** C8: the five checks run in the order budget, timing, daily balance,
    feasibility, cost distribution: an exception of the budget check comes
    first, then one of the timing check, and when both return, the plan has a
    result whose issues are the five lists concatenated in that order and
    whose warnings are the list of the warnings pass alone. *)
Theorem C8_checks_in_fixed_order (plan : TravelPlan.t) (reqs : gmap string PyVal) :
  match _validate_budget plan reqs, _validate_timing plan with
  | Raise e, _ => _validate_single_plan plan reqs = Raise e
  | Ok _, Raise e => _validate_single_plan plan reqs = Raise e
  | Ok i1, Ok i2 =>
      exists i3 i4 i5 w res,
        _validate_daily_balance plan = Ok i3 /\
        _validate_activity_feasibility plan = Ok i4 /\
        _validate_cost_distribution plan = Ok i5 /\
        _check_warnings plan = Ok w /\
        _validate_single_plan plan reqs = Ok res /\
        issues res = i1 ++ i2 ++ i3 ++ i4 ++ i5 /\
        warnings res = w
  end.
Proof.
  destruct (_validate_budget plan reqs) as [i1|e1] eqn:H1.
  - destruct (_validate_timing plan) as [i2|e2] eqn:H2.
    + destruct (validate_single_plan_returns plan reqs i1 i2 H1 H2)
        as (i3 & i4 & i5 & w & H3 & H4 & H5 & H6).
      exists i3, i4, i5, w. eexists. repeat split; try assumption.
      * apply validate_single_plan_Ok.
        exists i1, i2, i3, i4, i5, w. repeat split; try assumption.
      * reflexivity.
      * reflexivity.
    + unfold _validate_single_plan. rewrite H1, H2. reflexivity.
  - unfold _validate_single_plan. rewrite H1. reflexivity.
Qed.

(** ** Score *)

Lemma penalty_lookup (sev : string) :
  default 0%Z (severity_penalties !! sev) = penalty sev.
Proof.
  unfold severity_penalties, penalty.
  repeat (rewrite lookup_insert; case_decide as Hs;
          [subst sev; reflexivity
          |apply not_eq_sym, String.eqb_neq in Hs; rewrite Hs; clear Hs]).
  now rewrite lookup_empty.
Qed.

Lemma penalty_nonneg (sev : string) : (0 <= penalty sev)%Z.
Proof. unfold penalty. repeat (destruct (String.eqb sev _); [lia|]). lia. Qed.

Lemma total_penalty_nonneg (l : list ValidationIssue) : (0 <= total_penalty l)%Z.
Proof.
  induction l as [|i l IH]; unfold total_penalty in *; simpl; [lia|].
  pose proof (penalty_nonneg (severity i)). lia.
Qed.

Lemma deductions_fold (l : list ValidationIssue) (base : Z) :
  fold_left (fun base_score issue =>
               (base_score - inject_Z (default 0%Z (severity_penalties !! severity issue)))%Q)
            l (inject_Z base)
  = inject_Z (base - total_penalty l).
Proof.
  revert base. induction l as [|i l IH]; intros base; simpl.
  - unfold total_penalty. simpl. f_equal. lia.
  - rewrite penalty_lookup.
    replace (inject_Z base - inject_Z (penalty (severity i)))%Q
      with (inject_Z (base - penalty (severity i)))
      by (unfold Qminus, Qplus, Qopp, inject_Z; simpl; f_equal; lia).
    rewrite IH. unfold total_penalty. simpl. f_equal. lia.
Qed.

Lemma Qmax_0_inject_Z (z : Z) : Qmax 0 (inject_Z z) = inject_Z (Z.max 0 z).
Proof. destruct z; reflexivity. Qed.

(** The float score is the integer max(0, 100 - penalties). *)
Lemma quality_score_formula (plan : TravelPlan.t) (l : list ValidationIssue) :
  _calculate_quality_score plan l = inject_Z (Z.max 0 (100 - total_penalty l)).
Proof.
  unfold _calculate_quality_score.
  change 100%Q with (inject_Z 100). now rewrite deductions_fold, Qmax_0_inject_Z.
Qed.

Lemma quality_score_bounds (plan : TravelPlan.t) (l : list ValidationIssue) :
  (0 <= _calculate_quality_score plan l <= 100)%Q.
Proof.
  rewrite quality_score_formula.
  pose proof (total_penalty_nonneg l) as H.
  change 0%Q with (inject_Z 0). change 100%Q with (inject_Z 100).
  rewrite <- !Zle_Qle. lia.
Qed.

(** C4: the score of a returned result is max(0, 100 - the sum of the
    penalties of its issues), with penalty 20, 10, 5, 2 for critical, high,
    medium, low, and lies between 0 and 100. *)
Theorem C4_score_formula_and_bounds (plan : TravelPlan.t) (reqs : gmap string PyVal)
    (res : ValidationResult) :
  _validate_single_plan plan reqs = Ok res ->
  score res = inject_Z (Z.max 0 (100 - total_penalty (issues res))) /\
  (score res == Qmax 0 (100 - inject_Z (total_penalty (issues res))))%Q /\
  (0 <= score res <= 100)%Q /\
  penalty "critical" = 20%Z /\ penalty "high" = 10%Z /\
  penalty "medium" = 5%Z /\ penalty "low" = 2%Z.
Proof.
  intros H. apply validate_single_plan_Ok in H
    as (i1 & i2 & i3 & i4 & i5 & w & _ & _ & _ & _ & _ & _ & ->). simpl.
  split; [apply quality_score_formula|].
  split.
  - rewrite quality_score_formula, <- Qmax_0_inject_Z.
    apply Q.max_compat; [reflexivity|].
    unfold Zminus. rewrite inject_Z_plus, inject_Z_opp. reflexivity.
  - split; [apply quality_score_bounds|]. repeat split; reflexivity.
Qed.

Lemma C4_score_formula_and_bounds_witness :
  score over_budget_result
  = inject_Z (Z.max 0 (100 - total_penalty (issues over_budget_result))) /\
  (score over_budget_result
   == Qmax 0 (100 - inject_Z (total_penalty (issues over_budget_result))))%Q /\
  (0 <= score over_budget_result <= 100)%Q /\
  penalty "critical" = 20%Z /\ penalty "high" = 10%Z /\
  penalty "medium" = 5%Z /\ penalty "low" = 2%Z.
Proof.
  apply (C4_score_formula_and_bounds over_budget_plan (budget_of 1000) over_budget_result).
  reflexivity.
Defined.

(** ** Status *)

Lemma filter_nonempty_existsb {A} (f : A -> bool) (l : list A) :
  match List.filter f l with [] => false | _ :: _ => true end = existsb f l.
Proof.
  induction l as [|a l IH]; simpl; [reflexivity|].
  destruct (f a); simpl; [reflexivity|exact IH].
Qed.

Lemma existsb_severity (sev : string) (l : list ValidationIssue) :
  existsb (String.eqb sev) (map severity l)
  = existsb (fun i => String.eqb (severity i) sev) l.
Proof.
  induction l as [|a l IH]; simpl; [reflexivity|].
  now rewrite IH, String.eqb_sym.
Qed.

Lemma determine_status_severities (l : list ValidationIssue) :
  determine_status l = status_of_severities (map severity l).
Proof.
  unfold determine_status, status_of_severities.
  rewrite !existsb_severity, <- !filter_nonempty_existsb.
  destruct (List.filter _ l); [|reflexivity].
  destruct (List.filter _ l); reflexivity.
Qed.

Lemma existsb_severity_In (sev : string) (l : list ValidationIssue) :
  existsb (String.eqb sev) (map severity l) = true <->
  exists i, In i l /\ severity i = sev.
Proof.
  rewrite existsb_severity, existsb_exists.
  split; intros (i & Hin & H); exists i; split; try assumption.
  - now apply String.eqb_eq.
  - now apply String.eqb_eq.
Qed.

(** C5: the status of a returned result is determined by the severities of
    its issues alone: NEEDS_REVISION when one is critical, otherwise
    APPROVED_WITH_WARNINGS when one is high, otherwise APPROVED. *)
Theorem C5_status_from_severities (plan : TravelPlan.t) (reqs : gmap string PyVal)
    (res : ValidationResult) :
  _validate_single_plan plan reqs = Ok res ->
  status res = status_of_severities (map severity (issues res)) /\
  ((exists i, In i (issues res) /\ severity i = "critical") ->
     status res = "NEEDS_REVISION") /\
  (~ (exists i, In i (issues res) /\ severity i = "critical") ->
   (exists i, In i (issues res) /\ severity i = "high") ->
     status res = "APPROVED_WITH_WARNINGS") /\
  (~ (exists i, In i (issues res) /\ severity i = "critical") ->
   ~ (exists i, In i (issues res) /\ severity i = "high") ->
     status res = "APPROVED").
Proof.
  intros H. apply validate_single_plan_Ok in H
    as (i1 & i2 & i3 & i4 & i5 & w & _ & _ & _ & _ & _ & _ & ->). simpl.
  set (l := i1 ++ i2 ++ i3 ++ i4 ++ i5).
  rewrite determine_status_severities. unfold status_of_severities.
  pose proof (existsb_severity_In "critical" l) as Hc.
  pose proof (existsb_severity_In "high" l) as Hh.
  destruct (existsb (String.eqb "critical") (map severity l));
    destruct (existsb (String.eqb "high") (map severity l));
    repeat split; intros; try reflexivity;
    solve [ exfalso; intuition congruence | exfalso; intuition discriminate ].
Qed.

Lemma C5_status_from_severities_witness :
  status over_budget_result
  = status_of_severities (map severity (issues over_budget_result)) /\
  ((exists i, In i (issues over_budget_result) /\ severity i = "critical") ->
     status over_budget_result = "NEEDS_REVISION") /\
  (~ (exists i, In i (issues over_budget_result) /\ severity i = "critical") ->
   (exists i, In i (issues over_budget_result) /\ severity i = "high") ->
     status over_budget_result = "APPROVED_WITH_WARNINGS") /\
  (~ (exists i, In i (issues over_budget_result) /\ severity i = "critical") ->
   ~ (exists i, In i (issues over_budget_result) /\ severity i = "high") ->
     status over_budget_result = "APPROVED").
Proof.
  apply (C5_status_from_severities over_budget_plan (budget_of 1000) over_budget_result).
  reflexivity.
Defined.

(** The status is not a function of the score: one critical issue and two
    high issues both leave a score of 80, with different statuses. *)
Example same_score_different_status :
  _validate_single_plan over_budget_plan (budget_of 1000) = Ok over_budget_result /\
  _validate_single_plan rushed_plan (budget_of 1000) = Ok rushed_result /\
  map severity (issues over_budget_result) = ["critical"] /\
  map severity (issues rushed_result) = ["high"; "high"] /\
  score over_budget_result = 80%Q /\ score rushed_result = 80%Q /\
  status over_budget_result = "NEEDS_REVISION" /\
  status rushed_result = "APPROVED_WITH_WARNINGS".
Proof. repeat split; reflexivity. Qed.

(** ** Loops *)

Section ForEach.
Context {A B : Type} (f : A -> Result (list B)).

Lemma for_each_app (l1 l2 : list A) :
  for_each f (l1 ++ l2)
  = (a ← for_each f l1; b ← for_each f l2; Ok (a ++ b)).
Proof.
  induction l1 as [|x l1 IH]; simpl.
  - now destruct (for_each f l2).
  - destruct (f x) as [here|e]; simpl; [|reflexivity].
    rewrite IH. destruct (for_each f l1) as [a|e]; simpl; [|reflexivity].
    destruct (for_each f l2) as [b|e]; simpl; [|reflexivity].
    now rewrite app_assoc.
Qed.

Lemma for_each_Ok_split (pre post : list A) (x : A) (l : list B) :
  for_each f (pre ++ x :: post) = Ok l ->
  exists before here after,
    for_each f pre = Ok before /\ f x = Ok here /\ for_each f post = Ok after /\
    l = before ++ here ++ after.
Proof.
  rewrite for_each_app. simpl.
  destruct (for_each f pre) as [before|e]; simpl; [|discriminate].
  destruct (f x) as [here|e]; simpl; [|discriminate].
  destruct (for_each f post) as [after|e]; simpl; [|discriminate].
  intros [= <-]. now exists before, here, after.
Qed.

Lemma for_each_raise (pre post : list A) (x : A) :
  is_Raise (f x) -> is_Raise (for_each f (pre ++ x :: post)).
Proof.
  intros [e He]. rewrite for_each_app. simpl. rewrite He. simpl.
  destruct (for_each f pre) as [before|e']; simpl; eexists; reflexivity.
Qed.

Lemma for_each_ext (g : A -> Result (list B)) (l : list A) :
  (forall x, f x = g x) -> for_each f l = for_each g l.
Proof. intros H. induction l as [|x l IH]; simpl; [reflexivity|]. now rewrite H, IH. Qed.

Lemma for_each_map {C : Type} (g : C -> A) (l : list C) :
  for_each f (map g l) = for_each (fun x => f (g x)) l.
Proof. induction l as [|x l IH]; simpl; [reflexivity|]. now rewrite IH. Qed.

End ForEach.

Lemma consecutive_issues_step (day : DayPlan.t) (a b : Activity.t)
    (r : list Activity.t) :
  consecutive_issues day (a :: b :: r)
  = (here ← pair_issues day a b;
     later ← consecutive_issues day (b :: r);
     Ok (here ++ later)).
Proof. reflexivity. Qed.

Lemma consecutive_issues_split (day : DayPlan.t) (pre post : list Activity.t)
    (cur nxt : Activity.t) (l : list ValidationIssue) :
  consecutive_issues day (pre ++ cur :: nxt :: post) = Ok l ->
  exists before here after,
    pair_issues day cur nxt = Ok here /\ l = before ++ here ++ after.
Proof.
  revert l. induction pre as [|a pre IH]; intros l.
  - simpl app. rewrite consecutive_issues_step.
    intros H. apply bind_Ok in H as (here & Hh & H).
    apply bind_Ok in H as (later & _ & [= <-]).
    now exists [], here, later.
  - assert (Hstep : exists b r, pre ++ cur :: nxt :: post = b :: r)
      by (destruct pre; simpl; eauto).
    destruct Hstep as (b & r & Hbr).
    change ((a :: pre) ++ cur :: nxt :: post) with (a :: (pre ++ cur :: nxt :: post)).
    rewrite Hbr, consecutive_issues_step, <- Hbr.
    intros H. apply bind_Ok in H as (first & _ & H).
    apply bind_Ok in H as (later & Hl & [= <-]).
    destruct (IH later Hl) as (before & here & after & Hp & ->).
    exists (first ++ before), here, after. split; [exact Hp|].
    now rewrite <- app_assoc.
Qed.

Lemma consecutive_issues_raise (day : DayPlan.t) (pre post : list Activity.t)
    (cur nxt : Activity.t) :
  is_Raise (pair_issues day cur nxt) ->
  is_Raise (consecutive_issues day (pre ++ cur :: nxt :: post)).
Proof.
  intros [e He]. induction pre as [|a pre IH].
  - simpl app. rewrite consecutive_issues_step, He. now exists e.
  - assert (Hstep : exists b r, pre ++ cur :: nxt :: post = b :: r)
      by (destruct pre; simpl; eauto).
    destruct Hstep as (b & r & Hbr).
    change ((a :: pre) ++ cur :: nxt :: post) with (a :: (pre ++ cur :: nxt :: post)).
    rewrite Hbr, consecutive_issues_step, <- Hbr.
    destruct (pair_issues day a b) as [first|e1]; simpl; [|now exists e1].
    destruct IH as [e2 ->]. now exists e2.
Qed.

(** The issues of the timing check of a plan contain, for each day, the
    issues of that day. *)
Lemma validate_timing_day (plan : TravelPlan.t) (pre post : list DayPlan.t)
    (day : DayPlan.t) (l : list ValidationIssue) :
  TravelPlan.daily_plans plan = Some (pre ++ day :: post) ->
  _validate_timing plan = Ok l ->
  exists before pairs after,
    consecutive_issues day (DayPlan.activities day) = Ok pairs /\
    l = before
        ++ (activity_count_issues day ++ pairs ++ long_activity_issues day)
        ++ after.
Proof.
  intros Hd H. unfold _validate_timing, iter_daily_plans in H. rewrite Hd in H.
  simpl in H. apply for_each_Ok_split in H
    as (before & here & after & _ & Hday & _ & ->).
  unfold timing_of_day in Hday. apply bind_Ok in Hday as (pairs & Hp & [= <-]).
  now exists before, pairs, after.
Qed.

Lemma validate_timing_raise (plan : TravelPlan.t) (pre post : list DayPlan.t)
    (day : DayPlan.t) :
  TravelPlan.daily_plans plan = Some (pre ++ day :: post) ->
  is_Raise (consecutive_issues day (DayPlan.activities day)) ->
  is_Raise (_validate_timing plan).
Proof.
  intros Hd [e He]. unfold _validate_timing, iter_daily_plans. rewrite Hd. simpl.
  apply for_each_raise. unfold timing_of_day. rewrite He. now exists e.
Qed.

(** ** Times *)

(** What the format "%H:%M" accepts: one or two digits up to 23, a colon,
    one or two digits up to 59, and nothing else. *)
Example strptime_accepts :
  map strptime ["09:00"; "9:5"; "23:59"; "0:00"]
  = [Ok 32400000000%Z; Ok 32700000000%Z; Ok 86340000000%Z; Ok 0%Z].
Proof. reflexivity. Qed.

Example strptime_rejects :
  map strptime ["24:00"; "12:60"; "9am"; "09:00 "; "12:345"; ""; "0900"]
  = repeat (Raise ValueError) 7.
Proof. reflexivity. Qed.

(** Two hours after 09:00 is half an hour after 10:30. *)
Example buffer_time_overlap :
  buffer_time tower louvre = Ok (-1800000000 # 3600000000) /\
  (-1800000000 # 3600000000 == - (1 # 2))%Q.
Proof. split; reflexivity. Qed.

(** What one pair of consecutive activities adds, by its buffer. *)
Lemma pair_issues_by_buffer (day : DayPlan.t) (cur nxt : Activity.t) (buf : Q) :
  buffer_time cur nxt = Ok buf ->
  ((MIN_TIME_BETWEEN_ACTIVITIES <= buf)%Q -> pair_issues day cur nxt = Ok []) /\
  ((0 <= buf < MIN_TIME_BETWEEN_ACTIVITIES)%Q ->
     pair_issues day cur nxt = Ok [buffer_issue day cur nxt buf]).
Proof.
  intros Hb. unfold pair_issues. rewrite Hb. simpl.
  unfold MIN_TIME_BETWEEN_ACTIVITIES.
  destruct (Qlt_bool_reflect buf (5 # 10)); destruct (Qlt_bool_reflect buf 0);
    split; intros H; try reflexivity; lra.
Qed.

(** ** Overlap and insufficient buffer *)

Lemma pair_issues_overlap (day : DayPlan.t) (cur nxt : Activity.t) (buf : Q) :
  buffer_time cur nxt = Ok buf -> (buf < 0)%Q ->
  pair_issues day cur nxt
  = Ok [buffer_issue day cur nxt buf; overlap_issue day cur nxt].
Proof.
  intros Hb Hneg. unfold pair_issues. rewrite Hb. simpl.
  rewrite (Qlt_bool_true buf MIN_TIME_BETWEEN_ACTIVITIES)
    by (unfold MIN_TIME_BETWEEN_ACTIVITIES; lra).
  now rewrite (Qlt_bool_true buf 0).
Qed.

(** C1, as the code has it: a pair of consecutive activities with a negative
    buffer raises, for that pair, one high/timing buffer issue and then one
    critical/timing overlap issue; the two tests are independent, the overlap
    does not suppress the buffer issue, and both are in the list the timing
    check returns for the plan. *)
Theorem C1_overlap_raises_both_issues (plan : TravelPlan.t)
    (d_pre d_post : list DayPlan.t) (day : DayPlan.t)
    (pre post : list Activity.t) (cur nxt : Activity.t) (buf : Q) :
  TravelPlan.daily_plans plan = Some (d_pre ++ day :: d_post) ->
  DayPlan.activities day = pre ++ cur :: nxt :: post ->
  buffer_time cur nxt = Ok buf -> (buf < 0)%Q ->
  pair_issues day cur nxt
  = Ok [buffer_issue day cur nxt buf; overlap_issue day cur nxt] /\
  is_kind "high" "timing" (buffer_issue day cur nxt buf) = true /\
  is_kind "critical" "timing" (overlap_issue day cur nxt) = true /\
  (forall l, _validate_timing plan = Ok l ->
     exists before after,
       l = before
           ++ [buffer_issue day cur nxt buf; overlap_issue day cur nxt]
           ++ after).
Proof.
  intros Hd Ha Hb Hneg.
  pose proof (pair_issues_overlap day cur nxt buf Hb Hneg) as Hpair.
  repeat split; try assumption.
  intros l Hl.
  destruct (validate_timing_day plan d_pre d_post day l Hd Hl)
    as (before & pairs & after & Hp & ->).
  rewrite Ha in Hp. apply consecutive_issues_split in Hp
    as (b2 & here & a2 & Hhere & ->).
  rewrite Hpair in Hhere. injection Hhere as <-.
  exists (before ++ activity_count_issues day ++ b2),
         (a2 ++ long_activity_issues day ++ after).
  now rewrite <- !app_assoc.
Qed.

Lemma C1_overlap_raises_both_issues_witness :
  pair_issues overlap_day tower louvre
  = Ok [buffer_issue overlap_day tower louvre (-1800000000 # 3600000000);
        overlap_issue overlap_day tower louvre] /\
  is_kind "high" "timing"
    (buffer_issue overlap_day tower louvre (-1800000000 # 3600000000)) = true /\
  is_kind "critical" "timing" (overlap_issue overlap_day tower louvre) = true /\
  (forall l, _validate_timing overlap_plan = Ok l ->
     exists before after,
       l = before
           ++ [buffer_issue overlap_day tower louvre (-1800000000 # 3600000000);
               overlap_issue overlap_day tower louvre]
           ++ after).
Proof.
  apply (C1_overlap_raises_both_issues overlap_plan [] [] overlap_day
           [] [montmartre] tower louvre (-1800000000 # 3600000000)).
  - reflexivity.
  - reflexivity.
  - reflexivity.
  - reflexivity.
Defined.

(** The overlap of the specification (09:00 for two hours, then 10:30): the
    buffer is negative, and the pair raises a high/timing issue besides the
    critical one, not zero of them. *)
Lemma C1_overlap_counterexample :
  exists buf l,
    buffer_time tower louvre = Ok buf /\ (buf < 0)%Q /\
    pair_issues overlap_day tower louvre = Ok l /\
    count_kind "critical" "timing" l = 1%nat /\
    count_kind "high" "timing" l <> 0%nat /\
    map (fun i => (severity i, category i)) <$> _validate_timing overlap_plan
    = Ok [("high", "timing"); ("critical", "timing")].
Proof.
  eexists. eexists.
  split; [reflexivity|]. split; [reflexivity|]. split; [reflexivity|].
  split; [reflexivity|]. split; [discriminate|reflexivity].
Qed.

(** ** Unparsable times *)

Lemma strptime_raises_ValueError (s : string) (e : PyError) :
  strptime s = Raise e -> e = ValueError.
Proof.
  unfold strptime.
  destruct (_ ≫= _) as [|[[h m] [|c r]] found]; congruence.
Qed.

Lemma pair_issues_unparsable (day : DayPlan.t) (cur nxt : Activity.t) :
  is_Raise (strptime (Activity.time cur)) \/ is_Raise (strptime (Activity.time nxt)) ->
  pair_issues day cur nxt = Raise ValueError.
Proof.
  unfold pair_issues, buffer_time.
  intros [[e He]|[e He]].
  - rewrite He. apply strptime_raises_ValueError in He. now subst e.
  - destruct (strptime (Activity.time cur)) as [t|e'] eqn:Hc; simpl.
    + rewrite He. apply strptime_raises_ValueError in He. now subst e.
    + apply strptime_raises_ValueError in Hc. now subst e'.
Qed.

Lemma validate_single_plan_timing_raise (plan : TravelPlan.t)
    (reqs : gmap string PyVal) :
  is_Raise (_validate_timing plan) -> is_Raise (_validate_single_plan plan reqs).
Proof.
  intros [e He]. unfold _validate_single_plan. rewrite He.
  destruct (_validate_budget plan reqs) as [i1|e1]; simpl; eexists; reflexivity.
Qed.

(** C3, as the code has it: a time that [strptime] rejects, in a pair of
    consecutive activities, makes the loop body raise [ValueError]; the pair
    is not skipped and no issue is recorded for it: the timing check raises,
    and so does the validation of the plan, which returns no result. *)
Theorem C3_unparsable_time_raises (plan : TravelPlan.t) (reqs : gmap string PyVal)
    (d_pre d_post : list DayPlan.t) (day : DayPlan.t)
    (pre post : list Activity.t) (cur nxt : Activity.t) :
  TravelPlan.daily_plans plan = Some (d_pre ++ day :: d_post) ->
  DayPlan.activities day = pre ++ cur :: nxt :: post ->
  is_Raise (strptime (Activity.time cur)) \/ is_Raise (strptime (Activity.time nxt)) ->
  pair_issues day cur nxt = Raise ValueError /\
  is_Raise (_validate_timing plan) /\
  is_Raise (_validate_single_plan plan reqs).
Proof.
  intros Hd Ha Hbad.
  pose proof (pair_issues_unparsable day cur nxt Hbad) as Hpair.
  assert (Ht : is_Raise (_validate_timing plan)).
  { apply (validate_timing_raise plan d_pre d_post day Hd).
    rewrite Ha. apply consecutive_issues_raise. now exists ValueError. }
  repeat split; try assumption.
  now apply validate_single_plan_timing_raise.
Qed.

Lemma C3_unparsable_time_raises_witness :
  pair_issues unparsable_day brunch louvre = Raise ValueError /\
  is_Raise (_validate_timing unparsable_plan) /\
  is_Raise (_validate_single_plan unparsable_plan (budget_of 1000)).
Proof.
  apply (C3_unparsable_time_raises unparsable_plan (budget_of 1000) [] []
           unparsable_day [] [montmartre] brunch louvre).
  - reflexivity.
  - reflexivity.
  - left. exists ValueError. reflexivity.
Defined.

(** The time "9am" is rejected, and the plan that holds it gets no result:
    no medium/timing issue, the exception leaves the validation. *)
Lemma C3_unparsable_time_counterexample :
  strptime (Activity.time brunch) = Raise ValueError /\
  _validate_timing unparsable_plan = Raise ValueError /\
  _validate_single_plan unparsable_plan (budget_of 1000) = Raise ValueError /\
  ~ (exists res, _validate_single_plan unparsable_plan (budget_of 1000) = Ok res /\
                 (1 <= count_kind "medium" "timing" (issues res))%nat).
Proof.
  repeat split; try reflexivity.
  intros (res & H & _). discriminate H.
Qed.

(** ** The number of activities of a day *)









(** The boundary of the specification: eight activities raise nothing, nine
    raise the one high/timing issue, which names the nine. *)
Example eight_activities_no_issue :
  _validate_timing (plan_of "A" 1000 (Some [eight_day])) = Ok [].
Proof. reflexivity. Qed.

Example nine_activities_one_issue :
  _validate_timing (plan_of "A" 1000 (Some [nine_day])) = Ok [too_many_issue nine_day] /\
  severity (too_many_issue nine_day) = "high" /\
  category (too_many_issue nine_day) = "timing" /\
  affected_activities (too_many_issue nine_day)
  = ["a1"; "a2"; "a3"; "a4"; "a5"; "a6"; "a7"; "a8"; "a9"].
Proof. repeat split; reflexivity. Qed.

(** ** Batches *)

Lemma validate_plans_Ok (plans : list TravelPlan.t) (reqs : gmap string PyVal)
    (rs : list ValidationResult) :
  validate_plans plans reqs = Ok rs <->
  Forall2 (fun plan res => _validate_single_plan plan reqs = Ok res) plans rs.
Proof.
  revert rs. induction plans as [|plan plans IH]; intros rs; simpl.
  - split.
    + intros [= <-]. constructor.
    + intros H. now inversion H.
  - split.
    + intros H. apply bind_Ok in H as (res & Hres & H).
      apply bind_Ok in H as (rest & Hrest & [= <-]).
      constructor; [exact Hres|now apply IH].
    + intros H. inversion H as [|? res ? rest Hres Hrest]; subst.
      rewrite Hres. simpl. apply IH in Hrest. now rewrite Hrest.
Qed.

Lemma validate_plans_raise (pre post : list TravelPlan.t) (plan : TravelPlan.t)
    (reqs : gmap string PyVal) (e : PyError) :
  Forall (fun p => is_Ok (_validate_single_plan p reqs)) pre ->
  _validate_single_plan plan reqs = Raise e ->
  validate_plans (pre ++ plan :: post) reqs = Raise e.
Proof.
  intros Hpre He. induction Hpre as [|p pre [res Hp] _ IH]; simpl.
  - now rewrite He.
  - now rewrite Hp, IH.
Qed.

(** C2, as the code has it: the batch has no isolation.  When every plan
    before it validates, the exception of a failing plan leaves
    [validate_plans]: the batch returns no result at all, whatever the plans
    after it.  The batch returns results exactly when every plan validates,
    and then one result per plan, in the order of the plans, each the result
    of validating that plan alone. *)
Theorem C2_batch_fails_with_its_first_failing_plan
    (pre post : list TravelPlan.t) (plan : TravelPlan.t)
    (reqs : gmap string PyVal) (e : PyError) :
  Forall (fun p => is_Ok (_validate_single_plan p reqs)) pre ->
  _validate_single_plan plan reqs = Raise e ->
  validate_plans (pre ++ plan :: post) reqs = Raise e /\
  (forall plans rs,
     validate_plans plans reqs = Ok rs <->
     Forall2 (fun p res => _validate_single_plan p reqs = Ok res) plans rs) /\
  (forall plans rs, validate_plans plans reqs = Ok rs -> length rs = length plans).
Proof.
  intros Hpre He. split; [now apply validate_plans_raise|].
  split; [intros plans rs; apply validate_plans_Ok|].
  intros plans rs H. apply validate_plans_Ok in H.
  symmetry. exact (Forall2_length _ _ _ H).
Qed.

Lemma C2_batch_fails_with_its_first_failing_plan_witness :
  validate_plans ([quiet_plan "A"] ++ malformed_plan :: [quiet_plan "C"]) (budget_of 1000)
  = Raise TypeError /\
  (forall plans rs,
     validate_plans plans (budget_of 1000) = Ok rs <->
     Forall2 (fun p res => _validate_single_plan p (budget_of 1000) = Ok res) plans rs) /\
  (forall plans rs,
     validate_plans plans (budget_of 1000) = Ok rs -> length rs = length plans).
Proof.
  apply (C2_batch_fails_with_its_first_failing_plan
           [quiet_plan "A"] [quiet_plan "C"] malformed_plan (budget_of 1000) TypeError).
  - constructor; [|constructor]. eexists. reflexivity.
  - reflexivity.
Defined.

(** A batch of three plans, the second without [daily_plans]: the first and
    the third validate alone, the batch returns no results. *)
Lemma C2_batch_isolation_counterexample :
  is_Ok (_validate_single_plan (quiet_plan "A") (budget_of 1000)) /\
  is_Ok (_validate_single_plan (quiet_plan "C") (budget_of 1000)) /\
  TravelPlan.daily_plans malformed_plan = None /\
  validate_plans [quiet_plan "A"; malformed_plan; quiet_plan "C"] (budget_of 1000)
  = Raise TypeError /\
  ~ (exists rs,
       validate_plans [quiet_plan "A"; malformed_plan; quiet_plan "C"] (budget_of 1000)
       = Ok rs /\ length rs = 3%nat).
Proof.
  split; [eexists; reflexivity|]. split; [eexists; reflexivity|].
  split; [reflexivity|]. split; [reflexivity|].
  intros (rs & H & _). discriminate H.
Qed.

(** ** Warnings *)

(** None of the five checks reads what the warnings pass reads. *)
Lemma consecutive_issues_without_sources (d : DayPlan.t) (l : list Activity.t) :
  consecutive_issues (day_without_sources d) (map without_source l)
  = consecutive_issues d l.
Proof.
  induction l as [|a r IH]; [reflexivity|].
  destruct r as [|b r]; [reflexivity|].
  change (map without_source (a :: b :: r))
    with (without_source a :: without_source b :: map without_source r).
  rewrite !consecutive_issues_step.
  change (without_source b :: map without_source r)
    with (map without_source (b :: r)).
  rewrite IH. reflexivity.
Qed.

Lemma names_without_sources (l : list Activity.t) :
  names (map without_source l) = names l.
Proof. unfold names. rewrite map_map. reflexivity. Qed.

Lemma timing_of_day_without_sources (d : DayPlan.t) :
  timing_of_day (day_without_sources d) = timing_of_day d.
Proof.
  unfold timing_of_day. simpl.
  rewrite consecutive_issues_without_sources.
  destruct (consecutive_issues d (DayPlan.activities d)) as [pairs|e]; simpl;
    [|reflexivity].
  f_equal. f_equal; [|f_equal].
  - unfold activity_count_issues, too_many_issue, too_few_issue. simpl.
    now rewrite names_without_sources, length_map.
  - unfold long_activity_issues. simpl.
    induction (DayPlan.activities d) as [|a r IH]; simpl; [reflexivity|].
    now rewrite IH.
Qed.

Lemma validate_timing_without_warning_inputs (p : TravelPlan.t) :
  _validate_timing (without_warning_inputs p) = _validate_timing p.
Proof.
  unfold _validate_timing, iter_daily_plans. simpl.
  destruct (TravelPlan.daily_plans p) as [days|]; simpl; [|reflexivity].
  rewrite for_each_map. apply for_each_ext, timing_of_day_without_sources.
Qed.

Lemma py_sum_durations_without_sources (l : list Activity.t) :
  map Activity.duration_hours (map without_source l) = map Activity.duration_hours l.
Proof. rewrite map_map. reflexivity. Qed.

Lemma dining_without_sources (l : list Activity.t) :
  names (List.filter (fun a => String.eqb (Activity.category a) "dining")
           (map without_source l))
  = names (List.filter (fun a => String.eqb (Activity.category a) "dining") l).
Proof.
  unfold names. induction l as [|a r IH]; simpl; [reflexivity|].
  destruct (String.eqb (Activity.category a) "dining"); simpl;
    [f_equal|]; exact IH.
Qed.

Lemma balance_of_day_without_sources (d : DayPlan.t) :
  balance_of_day (day_without_sources d) = balance_of_day d.
Proof.
  unfold balance_of_day. simpl.
  rewrite py_sum_durations_without_sources, names_without_sources,
    dining_without_sources.
  replace (map Activity.category (map without_source (DayPlan.activities d)))
    with (map Activity.category (DayPlan.activities d))
    by (rewrite map_map; reflexivity).
  reflexivity.
Qed.

Lemma flat_map_map {A B C} (f : B -> list C) (g : A -> B) (l : list A) :
  flat_map f (map g l) = flat_map (fun x => f (g x)) l.
Proof. induction l as [|x l IH]; simpl; [reflexivity|]. now rewrite IH. Qed.

Lemma validate_daily_balance_without_warning_inputs (p : TravelPlan.t) :
  _validate_daily_balance (without_warning_inputs p) = _validate_daily_balance p.
Proof.
  unfold _validate_daily_balance, iter_daily_plans. simpl.
  destruct (TravelPlan.daily_plans p) as [days|]; simpl; [|reflexivity].
  rewrite flat_map_map. f_equal. apply flat_map_ext, balance_of_day_without_sources.
Qed.

Lemma validate_activity_feasibility_without_warning_inputs (p : TravelPlan.t) :
  _validate_activity_feasibility (without_warning_inputs p)
  = _validate_activity_feasibility p.
Proof.
  unfold _validate_activity_feasibility, iter_daily_plans. simpl.
  destruct (TravelPlan.daily_plans p) as [days|]; simpl; [|reflexivity].
  rewrite flat_map_map. f_equal. apply flat_map_ext. intros d. simpl.
  rewrite flat_map_map. apply flat_map_ext. intros a. reflexivity.
Qed.

Lemma validate_cost_distribution_without_warning_inputs (p : TravelPlan.t) :
  _validate_cost_distribution (without_warning_inputs p)
  = _validate_cost_distribution p.
Proof.
  unfold _validate_cost_distribution. simpl.
  destruct (TravelPlan.daily_plans p) as [[|d days]|]; simpl; try reflexivity.
  rewrite !map_map, !length_map. simpl. f_equal. f_equal. rewrite flat_map_map. reflexivity.
Qed.

Lemma check_warnings_returns (p : TravelPlan.t) (days : list DayPlan.t) :
  TravelPlan.daily_plans p = Some days -> is_Ok (_check_warnings p).
Proof.
  intros Hd. unfold _check_warnings, iter_daily_plans. rewrite Hd. simpl.
  eexists. reflexivity.
Qed.

Lemma verdict_without_warning_inputs (p : TravelPlan.t) (reqs : gmap string PyVal) :
  verdict <$> _validate_single_plan (without_warning_inputs p) reqs
  = verdict <$> _validate_single_plan p reqs.
Proof.
  unfold _validate_single_plan.
  rewrite validate_timing_without_warning_inputs,
    validate_daily_balance_without_warning_inputs,
    validate_activity_feasibility_without_warning_inputs,
    validate_cost_distribution_without_warning_inputs.
  change (_validate_budget (without_warning_inputs p) reqs)
    with (_validate_budget p reqs).
  destruct (_validate_budget p reqs) as [i1|e1]; simpl; [|reflexivity].
  destruct (_validate_timing p) as [i2|e2] eqn:Ht; simpl; [|reflexivity].
  apply timing_Ok_daily_plans in Ht as (days & Hd & _).
  destruct (_validate_daily_balance p) as [i3|e3]; simpl; [|reflexivity].
  destruct (_validate_activity_feasibility p) as [i4|e4]; simpl; [|reflexivity].
  destruct (_validate_cost_distribution p) as [i5|e5]; simpl; [|reflexivity].
  destruct (check_warnings_returns p days Hd) as [w ->].
  assert (Hd' : TravelPlan.daily_plans (without_warning_inputs p)
                = Some (map day_without_sources days))
    by (simpl; now rewrite Hd).
  destruct (check_warnings_returns _ _ Hd') as [w' ->].
  reflexivity.
Qed.

(** C9: two plans that differ only in what the warnings pass reads (the
    accommodation and transportation records, the sources of the activities)
    get, with the same requirements, the same outcome up to the warnings:
    the same exception, or results with the same score, status and issues. *)
Theorem C9_warnings_do_not_influence_the_verdict (p1 p2 : TravelPlan.t)
    (reqs : gmap string PyVal) :
  differ_in_warning_inputs_only p1 p2 ->
  verdict <$> _validate_single_plan p1 reqs
  = verdict <$> _validate_single_plan p2 reqs /\
  (forall r1 r2,
     _validate_single_plan p1 reqs = Ok r1 ->
     _validate_single_plan p2 reqs = Ok r2 ->
     score r1 = score r2 /\ status r1 = status r2) /\
  (is_Ok (_validate_single_plan p1 reqs) <-> is_Ok (_validate_single_plan p2 reqs)).
Proof.
  intros H. unfold differ_in_warning_inputs_only in H.
  assert (Hv : verdict <$> _validate_single_plan p1 reqs
               = verdict <$> _validate_single_plan p2 reqs).
  { rewrite <- (verdict_without_warning_inputs p1),
      <- (verdict_without_warning_inputs p2). now rewrite H. }
  split; [exact Hv|]. split.
  - intros r1 r2 H1 H2. rewrite H1, H2 in Hv. simpl in Hv.
    unfold verdict in Hv. injection Hv as _ Hstatus _ Hscore. now split.
  - destruct (_validate_single_plan p1 reqs) as [r1|e1];
      destruct (_validate_single_plan p2 reqs) as [r2|e2];
      simpl in Hv; try discriminate Hv;
      split; intros [r Hr]; try discriminate Hr; eexists; reflexivity.
Qed.

Lemma C9_warnings_do_not_influence_the_verdict_witness :
  verdict <$> _validate_single_plan (quiet_plan "A") (budget_of 1000)
  = verdict <$> _validate_single_plan bare_plan (budget_of 1000) /\
  (forall r1 r2,
     _validate_single_plan (quiet_plan "A") (budget_of 1000) = Ok r1 ->
     _validate_single_plan bare_plan (budget_of 1000) = Ok r2 ->
     score r1 = score r2 /\ status r1 = status r2) /\
  (is_Ok (_validate_single_plan (quiet_plan "A") (budget_of 1000))
   <-> is_Ok (_validate_single_plan bare_plan (budget_of 1000))).
Proof.
  apply (C9_warnings_do_not_influence_the_verdict (quiet_plan "A") bare_plan
           (budget_of 1000)).
  reflexivity.
Defined.

(** The two sample plans do differ in their warnings: none against three. *)
Example warnings_differ_verdicts_agree :
  (fun r => (status r, score r, length (warnings r)))
    <$> _validate_single_plan (quiet_plan "A") (budget_of 1000)
  = Ok ("APPROVED", 100%Q, 0%nat) /\
  (fun r => (status r, score r, length (warnings r)))
    <$> _validate_single_plan bare_plan (budget_of 1000)
  = Ok ("APPROVED", 100%Q, 3%nat).
Proof. split; reflexivity. Qed.

(** ** Well-formed plans are validated *)

Lemma digit_of_range (c : ascii) (d : Z) :
  digit_of c = Some d -> (0 <= d <= 9)%Z.
Proof.
  unfold digit_of.
  destruct (48 <=? Z.of_N (N_of_ascii c))%Z eqn:H1;
    destruct (Z.of_N (N_of_ascii c) <=? 57)%Z eqn:H2; simpl; try discriminate.
  intros [= <-]. lia.
Qed.

Lemma match_H_range (s r : string) (h : Z) :
  (h, r) ∈ match_H s -> (0 <= h <= 23)%Z.
Proof.
  unfold match_H. destruct s as [|c1 r1]; [intros H; inversion H|].
  destruct (digit_of c1) as [d1|] eqn:E1; [|intros H; inversion H].
  apply digit_of_range in E1.
  rewrite elem_of_app, list_elem_of_singleton.
  intros [H|[= -> _]]; [|lia].
  destruct r1 as [|c2 r2]; [inversion H|].
  destruct (digit_of c2) as [d2|] eqn:E2; [|inversion H].
  apply digit_of_range in E2.
  apply elem_of_app in H as [H|H].
  - destruct ((d1 =? 2)%Z && (d2 <=? 3)%Z) eqn:C; [|inversion H].
    apply list_elem_of_singleton in H as [= -> _]. lia.
  - destruct (d1 <=? 1)%Z eqn:C; [|inversion H].
    apply list_elem_of_singleton in H as [= -> _]. lia.
Qed.

Lemma match_M_range (s r : string) (m : Z) :
  (m, r) ∈ match_M s -> (0 <= m <= 59)%Z.
Proof.
  unfold match_M. destruct s as [|c1 r1]; [intros H; inversion H|].
  destruct (digit_of c1) as [d1|] eqn:E1; [|intros H; inversion H].
  apply digit_of_range in E1.
  rewrite elem_of_app, list_elem_of_singleton.
  intros [H|[= -> _]]; [|lia].
  destruct r1 as [|c2 r2]; [inversion H|].
  destruct (digit_of c2) as [d2|] eqn:E2; [|inversion H].
  apply digit_of_range in E2.
  destruct (d1 <=? 5)%Z eqn:C; [|inversion H].
  apply list_elem_of_singleton in H as [= -> _]. lia.
Qed.

(** A parsed time is a time of the day 1900-01-01. *)
Lemma strptime_range (s : string) (t : Z) :
  strptime s = Ok t -> (0 <= t < US_PER_DAY)%Z.
Proof.
  unfold strptime.
  destruct (_ ≫= _) as [|[[h m] r] found] eqn:E; [discriminate|].
  assert (Hin : (h, m, r) ∈ (h, m, r) :: found) by left.
  rewrite <- E in Hin.
  apply list_elem_of_bind in Hin as ([h' r1] & Hin & HH).
  apply list_elem_of_bind in Hin as (r2 & Hin & _).
  apply list_elem_of_bind in Hin as ([m' r3] & Hin & HM).
  apply list_elem_of_singleton in Hin as [= -> -> ->].
  apply match_H_range in HH. apply match_M_range in HM.
  destruct r3; [|discriminate]. intros [= <-].
  unfold US_PER_MINUTE, US_PER_DAY. lia.
Qed.

Lemma round_half_even_bounds (x : Q) :
  (Qfloor x <= round_half_even x <= Qfloor x + 1)%Z.
Proof.
  unfold round_half_even.
  destruct (_ ?= _)%Q; [destruct (Z.even (Qfloor x))| |]; lia.
Qed.

Lemma timedelta_hours_bounded (h : Q) :
  (- (1000000) <= h <= 1000000)%Q ->
  exists d, timedelta_hours h = Ok d /\
            (- 3600000000000000 <= d <= 3600000000000001)%Z.
Proof.
  intros [Hlo Hhi]. unfold timedelta_hours.
  set (x := (h * inject_Z US_PER_HOUR)%Q).
  assert (Hx : (inject_Z (- 3600000000000000) <= x
                /\ x <= inject_Z 3600000000000000)%Q).
  { unfold x, US_PER_HOUR.
    change (inject_Z (- 3600000000000000)) with (- (1000000) * inject_Z 3600000000)%Q.
    change (inject_Z 3600000000000000) with (1000000 * inject_Z 3600000000)%Q.
    split; apply Qmult_le_compat_r; try assumption; discriminate. }
  destruct Hx as [Hx1 Hx2].
  apply Qfloor_resp_le in Hx1, Hx2. rewrite Qfloor_Z in Hx1, Hx2.
  pose proof (round_half_even_bounds x) as Hr.
  set (us := round_half_even x) in *.
  assert (Hus : (- 3600000000000000 <= us <= 3600000000000001)%Z) by lia.
  exists us. split; [|exact Hus].
  assert (Hdays : (Z.abs (us / US_PER_DAY) <=? 999999999)%Z = true).
  { apply Z.leb_le. unfold US_PER_DAY.
    pose proof (Z.div_mod us 86400000000 ltac:(lia)) as Hdm.
    pose proof (Z.mod_pos_bound us 86400000000 ltac:(lia)) as Hmb.
    lia. }
  now rewrite Hdays.
Qed.

Lemma buffer_time_returns (cur nxt : Activity.t) :
  well_timed cur -> well_timed nxt -> is_Ok (buffer_time cur nxt).
Proof.
  intros [[t1 H1] Hd] [[t2 H2] _]. unfold buffer_time.
  rewrite H1, H2. simpl.
  destruct (timedelta_hours_bounded _ Hd) as (d & -> & Hrange). simpl.
  apply strptime_range in H1. unfold US_PER_DAY in H1.
  assert (Hadd : datetime_add t1 d = Ok (t1 + d)%Z).
  { unfold datetime_add, US_PER_DAY.
    pose proof (Z.div_mod (t1 + d) 86400000000 ltac:(lia)) as Hdm.
    pose proof (Z.mod_pos_bound (t1 + d) 86400000000 ltac:(lia)) as Hmb.
    assert (H0 : (0 <? 693596 + (t1 + d) / 86400000000)%Z = true)
      by (apply Z.ltb_lt; lia).
    assert (Hmax : (693596 + (t1 + d) / 86400000000 <=? 3652059)%Z = true)
      by (apply Z.leb_le; lia).
    now rewrite H0, Hmax. }
  rewrite Hadd. simpl. eexists. reflexivity.
Qed.

Lemma consecutive_issues_returns (day : DayPlan.t) (activities : list Activity.t) :
  Forall well_timed activities -> is_Ok (consecutive_issues day activities).
Proof.
  induction 1 as [|a r Ha Hr IH]; [eexists; reflexivity|].
  destruct r as [|b r]; [eexists; reflexivity|].
  rewrite consecutive_issues_step.
  inversion Hr as [|? ? Hb _]; subst.
  destruct IH as [later ->]. unfold pair_issues.
  destruct (buffer_time_returns a b Ha Hb) as [buf ->].
  eexists. reflexivity.
Qed.

Lemma validate_timing_returns (plan : TravelPlan.t) :
  well_formed plan -> is_Ok (_validate_timing plan).
Proof.
  intros (days & Hd & Hdays). unfold _validate_timing, iter_daily_plans.
  rewrite Hd. simpl. clear Hd.
  induction Hdays as [|day days Hday _ IH]; [eexists; reflexivity|].
  simpl. destruct IH as [later ->]. unfold timing_of_day.
  destruct (consecutive_issues_returns day _ Hday) as [pairs ->].
  eexists. reflexivity.
Qed.

(** Every well-formed plan gets a result, for every numeric budget other
    than zero. *)
Lemma validate_single_plan_total (plan : TravelPlan.t) (reqs : gmap string PyVal)
    (b : Q) :
  requirements_budget reqs = PyNum b -> ~ (b == 0)%Q -> well_formed plan ->
  is_Ok (_validate_single_plan plan reqs).
Proof.
  intros Hb Hnz Hwf.
  destruct (budget_check_returns plan reqs b Hb Hnz) as [i1 H1].
  destruct (validate_timing_returns plan Hwf) as [i2 H2].
  destruct (validate_single_plan_returns plan reqs i1 i2 H1 H2)
    as (i3 & i4 & i5 & w & H3 & H4 & H5 & H6).
  eexists. apply validate_single_plan_Ok.
  exists i1, i2, i3, i4, i5, w. repeat split; eassumption.
Qed.

Lemma validate_plans_total (plans : list TravelPlan.t) (reqs : gmap string PyVal)
    (b : Q) :
  requirements_budget reqs = PyNum b -> ~ (b == 0)%Q -> Forall well_formed plans ->
  exists rs, validate_plans plans reqs = Ok rs /\ length rs = length plans.
Proof.
  intros Hb Hnz Hwf. induction Hwf as [|plan plans Hp _ IH]; simpl.
  - now exists [].
  - destruct (validate_single_plan_total plan reqs b Hb Hnz Hp) as [res ->].
    destruct IH as (rs & -> & Hlen). simpl.
    exists (res :: rs). split; [reflexivity|]. simpl. now rewrite Hlen.
Qed.

(** * Further properties *)

(** * Further properties of the validator *)

(** ** Where issues come from *)

Lemma for_each_In {A B} (f : A -> Result (list B)) (l : list A) (out : list B) (y : B) :
  for_each f l = Ok out -> In y out ->
  exists x here, In x l /\ f x = Ok here /\ In y here.
Proof.
  revert out. induction l as [|x l IH]; intros out; simpl.
  - intros [= <-] [].
  - intros H Hy. apply bind_Ok in H as (here & Hx & H).
    apply bind_Ok in H as (later & Hl & [= <-]).
    apply in_app_or in Hy as [Hy|Hy].
    + exists x, here. auto.
    + destruct (IH later Hl Hy) as (x' & here' & Hin & Hf & Hy').
      exists x', here'. auto.
Qed.

Lemma consecutive_issues_In (day : DayPlan.t) (activities : list Activity.t)
    (out : list ValidationIssue) (i : ValidationIssue) :
  consecutive_issues day activities = Ok out -> In i out ->
  exists pre cur nxt post here,
    activities = pre ++ cur :: nxt :: post /\
    pair_issues day cur nxt = Ok here /\ In i here.
Proof.
  revert out. induction activities as [|a r IH]; intros out.
  - intros [= <-] [].
  - destruct r as [|b r].
    + intros [= <-] [].
    + rewrite consecutive_issues_step. intros H Hi.
      apply bind_Ok in H as (here & Hh & H).
      apply bind_Ok in H as (later & Hl & [= <-]).
      apply in_app_or in Hi as [Hi|Hi].
      * exists [], a, b, r, here. auto.
      * destruct (IH later Hl Hi) as (pre & cur & nxt & post & here' & E & Hp & Hi').
        exists (a :: pre), cur, nxt, post, here'. rewrite E. auto.
Qed.

Lemma pair_issues_In (day : DayPlan.t) (cur nxt : Activity.t)
    (here : list ValidationIssue) (i : ValidationIssue) :
  pair_issues day cur nxt = Ok here -> In i here ->
  exists buf,
    buffer_time cur nxt = Ok buf /\
    ((i = buffer_issue day cur nxt buf /\ (buf < 5 # 10)%Q) \/
     (i = overlap_issue day cur nxt /\ (buf < 0)%Q)).
Proof.
  unfold pair_issues. intros H Hi. apply bind_Ok in H as (buf & Hb & [= <-]).
  exists buf. split; [exact Hb|].
  unfold MIN_TIME_BETWEEN_ACTIVITIES in Hi.
  apply in_app_or in Hi as [Hi|Hi].
  - destruct (Qlt_bool_reflect buf (5 # 10)); [|destruct Hi].
    destruct Hi as [<-|[]]. now left.
  - destruct (Qlt_bool_reflect buf 0); [|destruct Hi].
    destruct Hi as [<-|[]]. now right.
Qed.

Lemma activity_count_issues_In (day : DayPlan.t) (i : ValidationIssue) :
  In i (activity_count_issues day) ->
  (i = too_many_issue day /\ (8 < length (DayPlan.activities day))%nat) \/
  (i = too_few_issue day /\ (length (DayPlan.activities day) < 3)%nat).
Proof.
  unfold activity_count_issues, MAX_DAILY_ACTIVITIES, MIN_DAILY_ACTIVITIES.
  destruct (Nat.ltb_spec 8 (length (DayPlan.activities day))).
  - intros [<-|[]]. now left.
  - destruct (Nat.ltb_spec (length (DayPlan.activities day)) 3).
    + intros [<-|[]]. now right.
    + intros [].
Qed.

Lemma long_activity_issues_In (day : DayPlan.t) (i : ValidationIssue) :
  In i (long_activity_issues day) ->
  severity i = "medium" /\ category i = "timing" /\
  day_number i = Some (DayPlan.day_number day).
Proof.
  unfold long_activity_issues. rewrite in_flat_map.
  intros (a & _ & Hi). destruct (Qlt_bool _ _); [|destruct Hi].
  destruct Hi as [<-|[]]. auto.
Qed.

Lemma validate_timing_In (plan : TravelPlan.t) (out : list ValidationIssue)
    (i : ValidationIssue) :
  _validate_timing plan = Ok out -> In i out ->
  exists days day,
    TravelPlan.daily_plans plan = Some days /\ In day days /\
    day_number i = Some (DayPlan.day_number day) /\ category i = "timing" /\
    ((i = too_many_issue day /\ (8 < length (DayPlan.activities day))%nat) \/
     (i = too_few_issue day /\ (length (DayPlan.activities day) < 3)%nat) \/
     (exists pre cur nxt post buf,
        DayPlan.activities day = pre ++ cur :: nxt :: post /\
        buffer_time cur nxt = Ok buf /\
        ((i = buffer_issue day cur nxt buf /\ (buf < 5 # 10)%Q) \/
         (i = overlap_issue day cur nxt /\ (buf < 0)%Q))) \/
     severity i = "medium").
Proof.
  intros H Hi. apply timing_Ok_daily_plans in H as (days & Hd & H).
  destruct (for_each_In _ _ _ _ H Hi) as (day & here & Hday & Hh & Hi').
  exists days, day. split; [exact Hd|]. split; [exact Hday|].
  unfold timing_of_day in Hh. apply bind_Ok in Hh as (pairs & Hp & [= <-]).
  apply in_app_or in Hi' as [Hc|Hi'];
    [|apply in_app_or in Hi' as [Hpair|Hlong]].
  - apply activity_count_issues_In in Hc as [[-> Hn]|[-> Hn]];
      (split; [reflexivity|]); (split; [reflexivity|]); auto.
  - destruct (consecutive_issues_In _ _ _ _ Hp Hpair)
      as (pre & cur & nxt & post & here & E & Hhere & Hin).
    destruct (pair_issues_In _ _ _ _ _ Hhere Hin) as (buf & Hb & Hcase).
    assert (Hshape : day_number i = Some (DayPlan.day_number day)
                     /\ category i = "timing")
      by (destruct Hcase as [[-> _]|[-> _]]; split; reflexivity).
    destruct Hshape as [Hdn Hcat]. split; [exact Hdn|]. split; [exact Hcat|].
    right. right. left. exists pre, cur, nxt, post, buf. auto.
  - apply long_activity_issues_In in Hlong as (Hs & Hc & Hdn). auto 6.
Qed.

Lemma balance_of_day_In (day : DayPlan.t) (i : ValidationIssue) :
  In i (balance_of_day day) ->
  category i = "logistics" /\
  day_number i = Some (DayPlan.day_number day) /\
  ((severity i = "high" /\
    (12 < py_sum (map Activity.duration_hours (DayPlan.activities day)))%Q) \/
   severity i = "low").
Proof.
  unfold balance_of_day. intros Hi.
  apply in_app_or in Hi as [Hi|Hi].
  - destruct (Qlt_bool_reflect 12
                (py_sum (map Activity.duration_hours (DayPlan.activities day)))).
    + destruct Hi as [<-|[]]. auto.
    + destruct (Qlt_bool _ 4); [|destruct Hi]. destruct Hi as [<-|[]]. auto.
  - destruct (_ <? _)%nat; [|destruct Hi]. destruct Hi as [<-|[]]. auto.
Qed.

Lemma feasibility_of_activity_In (day : DayPlan.t) (a : Activity.t)
    (i : ValidationIssue) :
  In i (feasibility_of_activity day a) ->
  category i = "budget" /\
  day_number i = Some (DayPlan.day_number day) /\
  affected_activities i = [Activity.name a] /\
  ((severity i = "critical" /\ (Activity.estimated_cost a < 0)%Q) \/
   (severity i = "medium" /\ (Activity.estimated_cost a == 0)%Q /\
    contains "museum" (lower (Activity.name a)) = true)).
Proof.
  unfold feasibility_of_activity. intros Hi.
  apply in_app_or in Hi as [Hi|Hi].
  - destruct (Qlt_bool_reflect (Activity.estimated_cost a) 0); [|destruct Hi].
    destruct Hi as [<-|[]]. auto 6.
  - destruct (Qeq_bool (Activity.estimated_cost a) 0) eqn:E; [|destruct Hi].
    destruct (contains "museum" (lower (Activity.name a))) eqn:C; [|destruct Hi].
    destruct Hi as [<-|[]]. apply Qeq_bool_iff in E. auto 7.
Qed.

Lemma distribution_of_day_In (avg : Q) (day : DayPlan.t) (i : ValidationIssue) :
  In i (distribution_of_day avg day) ->
  severity i = "low" /\ category i = "budget" /\
  day_number i = Some (DayPlan.day_number day) /\
  (avg * (14 # 10) < DayPlan.total_cost day)%Q.
Proof.
  unfold distribution_of_day.
  destruct (Qlt_bool_reflect (avg * (1 + MAX_DAILY_COST_VARIANCE))
              (DayPlan.total_cost day)) as [Hover|Hover]; [|intros []].
  intros [<-|[]]. repeat split; try reflexivity.
  unfold MAX_DAILY_COST_VARIANCE in Hover. lra.
Qed.

Lemma validate_budget_In (plan : TravelPlan.t) (reqs : gmap string PyVal)
    (out : list ValidationIssue) (i : ValidationIssue) :
  _validate_budget plan reqs = Ok out -> In i out ->
  category i = "budget" /\ day_number i = None /\
  ((severity i = "critical" /\ over_budget plan reqs) \/ severity i = "low").
Proof.
  unfold _validate_budget, over_budget. fold (requirements_budget reqs).
  destruct (requirements_budget reqs) as [| |b]; simpl; try discriminate.
  destruct (Qlt_bool_reflect (b * (1 + BUDGET_TOLERANCE)) (TravelPlan.total_cost plan))
    as [Hover|Hover].
  - intros H Hi. apply bind_Ok in H as (ratio & _ & [= <-]).
    destruct Hi as [<-|[]]. repeat split; try reflexivity.
    left. split; [reflexivity|]. exists b. split; [reflexivity|].
    unfold BUDGET_TOLERANCE in Hover. lra.
  - destruct (Qlt_bool _ _).
    + intros H Hi. apply bind_Ok in H as (ratio & _ & [= <-]).
      destruct Hi as [<-|[]]. auto.
    + intros [= <-] [].
Qed.

(** ** What the statuses mean *)

Lemma determine_status_cases (l : list ValidationIssue) :
  (determine_status l = "NEEDS_REVISION" <->
     exists i, In i l /\ severity i = "critical") /\
  (determine_status l = "APPROVED_WITH_WARNINGS" <->
     ~ (exists i, In i l /\ severity i = "critical") /\
     exists i, In i l /\ severity i = "high") /\
  (determine_status l = "APPROVED" <->
     ~ (exists i, In i l /\ severity i = "critical") /\
     ~ (exists i, In i l /\ severity i = "high")).
Proof.
  rewrite determine_status_severities. unfold status_of_severities.
  pose proof (existsb_severity_In "critical" l) as Hc.
  pose proof (existsb_severity_In "high" l) as Hh.
  destruct (existsb (String.eqb "critical") (map severity l));
    destruct (existsb (String.eqb "high") (map severity l));
    repeat split; intros; try discriminate; try reflexivity;
    try tauto; try (apply Hc; reflexivity); try (apply Hh; reflexivity);
    try (intros Hx; apply Hc in Hx; discriminate Hx);
    try (intros Hx; apply Hh in Hx; discriminate Hx);
    exfalso; intuition discriminate.
Qed.

Lemma in_days_split (days : list DayPlan.t) (day : DayPlan.t) :
  In day days -> exists pre post, days = pre ++ day :: post.
Proof. apply in_split. Qed.







Lemma validate_cost_distribution_Ok (plan : TravelPlan.t) (days : list DayPlan.t) :
  TravelPlan.daily_plans plan = Some days ->
  _validate_cost_distribution plan
  = Ok (flat_map (distribution_of_day (average_daily_cost days)) days).
Proof.
  intros Hd. unfold _validate_cost_distribution. rewrite Hd.
  destruct days; reflexivity.
Qed.

(** Every issue of a result, by the check it comes from. *)
Lemma result_issue_cases (plan : TravelPlan.t) (reqs : gmap string PyVal)
    (res : ValidationResult) (i : ValidationIssue) :
  _validate_single_plan plan reqs = Ok res -> In i (issues res) ->
  exists days,
    TravelPlan.daily_plans plan = Some days /\
    known_severity i /\ known_category i /\
    (severity i = "critical" ->
       over_budget plan reqs \/ has_overlap days \/ has_negative_cost days) /\
    (severity i = "high" ->
       has_crowded_day days \/ has_short_buffer days \/ has_overloaded_day days) /\
    (day_number i = None -> category i = "budget") /\
    (forall n, day_number i = Some n ->
       exists day, In day days /\ DayPlan.day_number day = n).
Proof.
  intros H Hi. apply validate_single_plan_Ok in H
    as (i1 & i2 & i3 & i4 & i5 & w & H1 & H2 & H3 & H4 & H5 & _ & ->).
  simpl in Hi.
  destruct (timing_Ok_daily_plans plan i2 H2) as (days & Hd & _).
  exists days. split; [exact Hd|].
  unfold known_severity, known_category.
  rewrite !in_app_iff in Hi. destruct Hi as [Hi|[Hi|[Hi|[Hi|Hi]]]].
  - destruct (validate_budget_In plan reqs i1 i H1 Hi) as (Hc & Hn & [[Hs Ho]|Hs]);
      rewrite Hc, Hs, Hn; simpl; repeat split; auto 6;
      intros; discriminate.
  - destruct (validate_timing_In plan i2 i H2 Hi)
      as (days' & day & Hd' & Hday & Hn & Hc & Hcase).
    rewrite Hd in Hd'. injection Hd' as <-.
    rewrite Hc, Hn.
    destruct Hcase as [[-> Hmany]|[[-> Hfew]|[Hpair|Hs]]].
    + simpl. repeat split; auto 6; try (intros; discriminate);
        try (intros n [= <-]; now exists day).
      intros _. left. now exists day.
    + simpl. repeat split; auto 6; try (intros; discriminate);
        try (intros n [= <-]; now exists day).
    + destruct Hpair as (pre & cur & nxt & post & buf & Ha & Hb & [[-> Hlt]|[-> Hlt]]);
        simpl; repeat split; auto 6; try (intros; discriminate);
        try (intros n [= <-]; now exists day).
      * intros _. right. left. exists day, pre, cur, nxt, post, buf. auto.
      * intros _. right. left. exists day, pre, cur, nxt, post, buf. auto.
    + rewrite Hs. simpl. repeat split; auto 6; try (intros; discriminate);
        try (intros n [= <-]; now exists day).
  - unfold _validate_daily_balance, iter_daily_plans in H3. rewrite Hd in H3.
    injection H3 as <-. apply in_flat_map in Hi as (day & Hday & Hi).
    apply balance_of_day_In in Hi as (Hc & Hn & [[Hs Hh]|Hs]);
      rewrite Hc, Hs, Hn; simpl; repeat split; auto 6;
      try (intros; discriminate); try (intros n [= <-]; now exists day).
    intros _. right. right. now exists day.
  - unfold _validate_activity_feasibility, iter_daily_plans in H4. rewrite Hd in H4.
    injection H4 as <-. apply in_flat_map in Hi as (day & Hday & Hi).
    apply in_flat_map in Hi as (a & Ha & Hi).
    apply feasibility_of_activity_In in Hi as (Hc & Hn & _ & [[Hs Hneg]|[Hs _]]);
      rewrite Hc, Hs, Hn; simpl; repeat split; auto 6;
      try (intros; discriminate); try (intros n [= <-]; now exists day).
    intros _. right. right. now exists day, a.
  - rewrite (validate_cost_distribution_Ok plan days Hd) in H5.
    injection H5 as <-. apply in_flat_map in Hi as (day & Hday & Hi).
    apply distribution_of_day_In in Hi as (Hs & Hc & Hn & _).
    rewrite Hc, Hs, Hn. simpl. repeat split; auto 6;
      try (intros; discriminate); try (intros n [= <-]; now exists day).
Qed.

(** X1: Every issue of a result has one of the four severities and one of the
    categories budget, timing, logistics (never "availability"); an issue
    without a day number comes from the budget check, and a day number is the
    number of a day of the plan. *)
Theorem issues_have_known_kinds (plan : TravelPlan.t) (reqs : gmap string PyVal)
    (res : ValidationResult) :
  _validate_single_plan plan reqs = Ok res ->
  exists days,
    TravelPlan.daily_plans plan = Some days /\
    Forall (fun i =>
      known_severity i /\ known_category i /\ category i <> "availability" /\
      (day_number i = None -> category i = "budget") /\
      (forall n, day_number i = Some n ->
         exists day, In day days /\ DayPlan.day_number day = n))
      (issues res).
Proof.
  intros H.
  destruct (validate_single_plan_Ok plan reqs res) as [Hinv _].
  destruct (Hinv H) as (i1 & i2 & i3 & i4 & i5 & w & _ & H2 & _).
  destruct (timing_Ok_daily_plans plan i2 H2) as (days & Hd & _).
  exists days. split; [exact Hd|].
  apply List.Forall_forall. intros i Hi.
  destruct (result_issue_cases plan reqs res i H Hi)
    as (days' & Hd' & Hs & Hc & _ & _ & Hnone & Hsome).
  rewrite Hd in Hd'. injection Hd' as <-.
  repeat split; try assumption.
  intros Ha. unfold known_category in Hc. rewrite Ha in Hc.
  simpl in Hc. intuition discriminate.
Qed.

Lemma issues_have_known_kinds_witness :
  exists days,
    TravelPlan.daily_plans over_budget_plan = Some days /\
    Forall (fun i =>
      known_severity i /\ known_category i /\ category i <> "availability" /\
      (day_number i = None -> category i = "budget") /\
      (forall n, day_number i = Some n ->
         exists day, In day days /\ DayPlan.day_number day = n))
      (issues over_budget_result).
Proof.
  apply (issues_have_known_kinds over_budget_plan (budget_of 1000) over_budget_result).
  reflexivity.
Defined.





(** ** Score and status *)

Lemma total_penalty_app (l1 l2 : list ValidationIssue) :
  total_penalty (l1 ++ l2) = (total_penalty l1 + total_penalty l2)%Z.
Proof.
  unfold total_penalty. induction l1 as [|i l1 IH]; simpl; [reflexivity|].
  rewrite IH. lia.
Qed.

Lemma total_penalty_In (l : list ValidationIssue) (i : ValidationIssue) :
  In i l -> (penalty (severity i) <= total_penalty l)%Z.
Proof.
  intros Hi. apply in_split in Hi as (l1 & l2 & ->).
  rewrite total_penalty_app.
  pose proof (total_penalty_nonneg l1). pose proof (total_penalty_nonneg l2).
  unfold total_penalty at 2. simpl. fold (total_penalty l2). lia.
Qed.

Lemma total_penalty_Permutation (l l' : list ValidationIssue) :
  Permutation l l' -> total_penalty l = total_penalty l'.
Proof.
  unfold total_penalty. induction 1; simpl; lia.
Qed.

Lemma existsb_Permutation {A} (f : A -> bool) (l l' : list A) :
  Permutation l l' -> existsb f l = existsb f l'.
Proof.
  induction 1 as [|x l l' _ IH|x y l|l l' l'' _ IH1 _ IH2]; simpl.
  - reflexivity.
  - now rewrite IH.
  - destruct (f x), (f y); reflexivity.
  - now rewrite IH1.
Qed.

(** X4: The score and the status depend on the issues as a multiset: they are
    the same for any reordering of the list (and for any plan argument). *)
Theorem score_and_status_ignore_order (plan plan' : TravelPlan.t)
    (l l' : list ValidationIssue) :
  Permutation l l' ->
  _calculate_quality_score plan l = _calculate_quality_score plan' l' /\
  determine_status l = determine_status l'.
Proof.
  intros HP. split.
  - rewrite !quality_score_formula. now rewrite (total_penalty_Permutation l l' HP).
  - rewrite !determine_status_severities. unfold status_of_severities.
    assert (HPs : Permutation (map severity l) (map severity l'))
      by (apply Permutation_map; exact HP).
    now rewrite (existsb_Permutation _ _ _ HPs),
      (existsb_Permutation (String.eqb "high") _ _ HPs).
Qed.

Lemma score_and_status_ignore_order_witness :
  _calculate_quality_score over_budget_plan
    (issues rushed_result ++ issues over_budget_result)
  = _calculate_quality_score rushed_plan
      (issues over_budget_result ++ issues rushed_result) /\
  determine_status (issues rushed_result ++ issues over_budget_result)
  = determine_status (issues over_budget_result ++ issues rushed_result).
Proof.
  apply (score_and_status_ignore_order over_budget_plan rushed_plan).
  apply Permutation_app_comm.
Defined.

Lemma status_rank_of_severities (sevs : list string) :
  status_rank (status_of_severities sevs)
  = if existsb (String.eqb "critical") sevs then 2%nat
    else if existsb (String.eqb "high") sevs then 1%nat else 0%nat.
Proof.
  unfold status_of_severities.
  destruct (existsb (String.eqb "critical") sevs); [reflexivity|].
  destruct (existsb (String.eqb "high") sevs); reflexivity.
Qed.

(** X5: More issues never raise the score and never improve the status. *)
Theorem more_issues_never_help (plan : TravelPlan.t)
    (l extra : list ValidationIssue) :
  (_calculate_quality_score plan (l ++ extra) <= _calculate_quality_score plan l)%Q /\
  (status_rank (determine_status l)
   <= status_rank (determine_status (l ++ extra)))%nat.
Proof.
  split.
  - rewrite !quality_score_formula, total_penalty_app.
    pose proof (total_penalty_nonneg extra).
    rewrite <- Zle_Qle. lia.
  - rewrite !determine_status_severities, !status_rank_of_severities.
    rewrite map_app, !existsb_app.
    generalize (existsb (String.eqb "critical") (map severity l)),
      (existsb (String.eqb "critical") (map severity extra)),
      (existsb (String.eqb "high") (map severity l)),
      (existsb (String.eqb "high") (map severity extra)).
    intros [] [] [] []; simpl; lia.
Qed.

Lemma known_severity_penalty (i : ValidationIssue) :
  known_severity i -> (2 <= penalty (severity i))%Z.
Proof.
  unfold known_severity. simpl.
  intros [<-|[<-|[<-|[<-|[]]]]]; unfold penalty; simpl; lia.
Qed.

(** X6: The score of a result agrees with its status and its issues: at most 80
    with NEEDS_REVISION, at most 90 with APPROVED_WITH_WARNINGS, and 100
    exactly when there is no issue at all. *)
Theorem score_agrees_with_status (plan : TravelPlan.t) (reqs : gmap string PyVal)
    (res : ValidationResult) :
  _validate_single_plan plan reqs = Ok res ->
  (status res = "NEEDS_REVISION" -> (score res <= 80)%Q) /\
  (status res = "APPROVED_WITH_WARNINGS" -> (score res <= 90)%Q) /\
  ((score res == 100)%Q <-> issues res = []) /\
  (issues res <> [] -> (score res <= 98)%Q).
Proof.
  intros H.
  destruct (validate_single_plan_Ok plan reqs res) as [Hinv _].
  destruct (Hinv H) as (i1 & i2 & i3 & i4 & i5 & w & _ & _ & _ & _ & _ & _ & E).
  assert (Hst : status res = determine_status (issues res)) by (rewrite E; reflexivity).
  assert (Hsc : score res = inject_Z (Z.max 0 (100 - total_penalty (issues res))))
    by (rewrite E; simpl; apply quality_score_formula).
  assert (Hne : issues res <> [] -> (2 <= total_penalty (issues res))%Z).
  { destruct (issues res) as [|i l] eqn:El; [congruence|]. intros _.
    destruct (result_issue_cases plan reqs res i H) as (days & _ & Hs & _).
    - rewrite El. now left.
    - apply known_severity_penalty in Hs.
      pose proof (total_penalty_In (i :: l) i (or_introl eq_refl)). lia. }
  rewrite Hst, Hsc.
  change 80%Q with (inject_Z 80). change 90%Q with (inject_Z 90).
  change 98%Q with (inject_Z 98). change 100%Q with (inject_Z 100).
  rewrite <- !Zle_Qle, inject_Z_injective.
  split; [|split; [|split]].
  - intros Hs. apply (proj1 (determine_status_cases _)) in Hs as (i & Hi & Hs).
    apply total_penalty_In in Hi. rewrite Hs in Hi. unfold penalty in Hi.
    simpl in Hi. lia.
  - intros Hs. apply (proj1 (proj2 (determine_status_cases _))) in Hs
      as (_ & i & Hi & Hs).
    apply total_penalty_In in Hi. rewrite Hs in Hi. unfold penalty in Hi.
    simpl in Hi. lia.
  - split.
    + intros Hmax. destruct (issues res) as [|i l] eqn:El; [reflexivity|].
      assert (Hx : i :: l <> []) by discriminate. apply Hne in Hx. lia.
    + intros ->. reflexivity.
  - intros Hx. apply Hne in Hx. lia.
Qed.

Lemma score_agrees_with_status_witness :
  (status over_budget_result = "NEEDS_REVISION" -> (score over_budget_result <= 80)%Q) /\
  (status over_budget_result = "APPROVED_WITH_WARNINGS" ->
     (score over_budget_result <= 90)%Q) /\
  ((score over_budget_result == 100)%Q <-> issues over_budget_result = []) /\
  (issues over_budget_result <> [] -> (score over_budget_result <= 98)%Q).
Proof.
  apply (score_agrees_with_status over_budget_plan (budget_of 1000) over_budget_result).
  reflexivity.
Defined.

(** ** The budget check with a budget of zero *)

(** X7: With a budget of zero (the default of a missing key) the budget check
    returns only for a plan that costs nothing, and then without an issue;
    any other total cost, positive or negative, divides by zero, and the
    plan gets no result. *)
Theorem zero_budget_returns_only_for_free_plans (plan : TravelPlan.t)
    (reqs : gmap string PyVal) (b : Q) :
  requirements_budget reqs = PyNum b -> (b == 0)%Q ->
  ((TravelPlan.total_cost plan == 0)%Q -> _validate_budget plan reqs = Ok []) /\
  (~ (TravelPlan.total_cost plan == 0)%Q ->
     _validate_budget plan reqs = Raise ZeroDivisionError /\
     _validate_single_plan plan reqs = Raise ZeroDivisionError).
Proof.
  intros Hb Hz.
  assert (Hdiv : forall x, py_div x b = Raise ZeroDivisionError).
  { intros x. unfold py_div. apply Qeq_bool_iff in Hz. now rewrite Hz. }
  unfold _validate_single_plan, _validate_budget.
  fold (requirements_budget reqs). rewrite Hb. simpl.
  set (c := TravelPlan.total_cost plan).
  destruct (Qlt_bool_reflect (b * (1 + BUDGET_TOLERANCE)) c) as [H1|H1];
    [|destruct (Qlt_bool_reflect c (b * (6 # 10))) as [H2|H2]];
    rewrite ?Hdiv; simpl; unfold BUDGET_TOLERANCE in H1;
    (split; [intros H0|intros H0]); try (split; reflexivity); try reflexivity;
    exfalso; lra.
Qed.

Lemma zero_budget_returns_only_for_free_plans_witness :
  ((TravelPlan.total_cost (plan_of "A" (-5) (Some [quiet_day])) == 0)%Q ->
     _validate_budget (plan_of "A" (-5) (Some [quiet_day])) ∅ = Ok []) /\
  (~ (TravelPlan.total_cost (plan_of "A" (-5) (Some [quiet_day])) == 0)%Q ->
     _validate_budget (plan_of "A" (-5) (Some [quiet_day])) ∅ = Raise ZeroDivisionError /\
     _validate_single_plan (plan_of "A" (-5) (Some [quiet_day])) ∅
     = Raise ZeroDivisionError).
Proof.
  apply (zero_budget_returns_only_for_free_plans
           (plan_of "A" (-5) (Some [quiet_day])) ∅ 0).
  - reflexivity.
  - reflexivity.
Defined.

(** ** The daily balance check *)





(** ** The feasibility check *)









(** Free museums are found whatever the letter case of the name. *)
Example free_museum_any_case :
  map free_museum
    [Activity.mk "10:00" "Louvre MUSEUM" "" "" 0 2 "culture" "";
     Activity.mk "10:00" "Musee d'Orsay" "" "" 0 2 "culture" "";
     Activity.mk "10:00" "museum of modern art" "" "" 15 2 "culture" ""]
  = [true; false; false].
Proof. reflexivity. Qed.

(** ** The cost-distribution check *)








(** With a negative total the check does flag a single day: -10 is more than
    140% of the average -10. *)
Example negative_single_day_is_flagged :
  (map severity) <$> _validate_cost_distribution
     (plan_of "A" 1000 (Some [DayPlan.mk 1 "" "" [] (-10) ""]))
  = Ok ["low"].
Proof. reflexivity. Qed.

(** ** The warnings *)

Lemma missing_entry_false_iff (d : option (gmap string PyVal)) (key : string) :
  missing_entry d key = false <-> has_entry d key.
Proof.
  unfold missing_entry, has_entry. destruct d as [m|].
  - split.
    + intros H. apply orb_false_iff in H as [_ H].
      apply negb_false_iff in H.
      destruct (m !! key) as [v|] eqn:E; [|discriminate H].
      now exists m, v.
    + intros (m' & v & [= <-] & E & Hv). rewrite E. simpl. rewrite Hv.
      rewrite bool_decide_eq_false_2; [reflexivity|].
      intros ->. rewrite lookup_empty in E. discriminate E.
  - split; [discriminate|]. intros (m & v & H & _). discriminate H.
Qed.

Lemma total_activities_length (days : list DayPlan.t) (a : Z) :
  fold_left Z.add (map (fun day => Z.of_nat (length (DayPlan.activities day))) days) a
  = (a + Z.of_nat (length (all_activities days)))%Z.
Proof.
  unfold all_activities. revert a.
  induction days as [|d days IH]; intros a; simpl; [lia|].
  rewrite IH, length_app. lia.
Qed.

Lemma sourced_activities_length (days : list DayPlan.t) :
  length (flat_map (fun day =>
            List.filter (fun activity => negb (String.eqb (Activity.source activity) ""))
              (DayPlan.activities day)) days)
  = length (List.filter sourced (all_activities days)).
Proof.
  unfold all_activities.
  induction days as [|d days IH]; [reflexivity|].
  cbn [flat_map]. now rewrite List.filter_app, !length_app, IH.
Qed.

(** X11: The warnings pass returns at most three warnings, and none exactly when
    the accommodation has a truthy 'name', the transportation a truthy
    'daily', and at least half of the activities of the plan have a source. *)
Theorem no_warnings_iff (plan : TravelPlan.t) (days : list DayPlan.t) :
  TravelPlan.daily_plans plan = Some days ->
  exists ws,
    _check_warnings plan = Ok ws /\
    (length ws <= 3)%nat /\
    (ws = [] <->
       has_entry (TravelPlan.accommodation plan) "name" /\
       has_entry (TravelPlan.transportation plan) "daily" /\
       (length (all_activities days)
        <= 2 * length (List.filter sourced (all_activities days)))%nat).
Proof.
  intros Hd. unfold _check_warnings, iter_daily_plans. rewrite Hd. simpl.
  rewrite total_activities_length, sourced_activities_length.
  set (t := length (all_activities days)).
  set (w := length (List.filter sourced (all_activities days))).
  pose proof (missing_entry_false_iff (TravelPlan.accommodation plan) "name") as Ha.
  pose proof (missing_entry_false_iff (TravelPlan.transportation plan) "daily") as Ht.
  assert (Hq : Qlt_bool (inject_Z (Z.of_nat w)) (inject_Z (0 + Z.of_nat t) * (5 # 10))
               = true <-> (2 * w < t)%nat).
  { destruct (Qlt_bool_reflect (inject_Z (Z.of_nat w))
                (inject_Z (0 + Z.of_nat t) * (5 # 10))) as [H|H].
    - split; [intros _|reflexivity].
      assert (H' : (inject_Z (2 * Z.of_nat w) < inject_Z (Z.of_nat t))%Q).
      { rewrite inject_Z_mult. change (inject_Z 2) with 2%Q.
        change (0 + Z.of_nat t)%Z with (Z.of_nat t) in H. lra. }
      rewrite <- Zlt_Qlt in H'. lia.
    - split; [discriminate|]. intros Hlt. exfalso. apply H.
      assert (H' : (inject_Z (2 * Z.of_nat w) < inject_Z (Z.of_nat t))%Q)
        by (rewrite <- Zlt_Qlt; lia).
      rewrite inject_Z_mult in H'. change (inject_Z 2) with 2%Q in H'.
      change (0 + Z.of_nat t)%Z with (Z.of_nat t). lra. }
  eexists. split; [reflexivity|].
  destruct (missing_entry (TravelPlan.accommodation plan) "name");
    destruct (missing_entry (TravelPlan.transportation plan) "daily");
    destruct (Qlt_bool _ _); simpl;
    (split; [lia|]); split; intros H; try discriminate H; try reflexivity;
    try (destruct H as (H1 & H2 & H3));
    try (apply Ha in H1; discriminate H1);
    try (apply Ht in H2; discriminate H2);
    try (exfalso; assert (Hx : (2 * w < t)%nat) by (apply Hq; reflexivity); lia).
  repeat split.
  - now apply Ha.
  - now apply Ht.
  - destruct (Nat.le_gt_cases t (2 * w)) as [Hle|Hgt]; [exact Hle|].
    apply Hq in Hgt. discriminate Hgt.
Qed.

Lemma no_warnings_iff_witness :
  exists ws,
    _check_warnings bare_plan = Ok ws /\
    (length ws <= 3)%nat /\
    (ws = [] <->
       has_entry (TravelPlan.accommodation bare_plan) "name" /\
       has_entry (TravelPlan.transportation bare_plan) "daily" /\
       (length (all_activities [anonymous_day])
        <= 2 * length (List.filter sourced (all_activities [anonymous_day])))%nat).
Proof.
  apply (no_warnings_iff bare_plan [anonymous_day]).
  reflexivity.
Defined.

(** ** More on the timing check *)






Lemma timedelta_hours_value (h : Q) :
  (- (1000000) <= h <= 1000000)%Q ->
  timedelta_hours h = Ok (round_half_even (h * inject_Z US_PER_HOUR)).
Proof.
  intros Hh. destruct (timedelta_hours_bounded h Hh) as (d & Hd & _).
  unfold timedelta_hours in *.
  destruct (_ <=? _)%Z; [reflexivity|discriminate Hd].
Qed.

Lemma datetime_add_in_range (t d : Z) :
  (0 <= t < US_PER_DAY)%Z ->
  (- 3600000000000000 <= d <= 3600000000000001)%Z ->
  datetime_add t d = Ok (t + d)%Z.
Proof.
  unfold datetime_add, US_PER_DAY. intros Ht Hd.
  pose proof (Z.div_mod (t + d) 86400000000 ltac:(lia)) as Hdm.
  pose proof (Z.mod_pos_bound (t + d) 86400000000 ltac:(lia)) as Hmb.
  assert (H0 : (0 <? 693596 + (t + d) / 86400000000)%Z = true)
    by (apply Z.ltb_lt; lia).
  assert (Hmax : (693596 + (t + d) / 86400000000 <=? 3652059)%Z = true)
    by (apply Z.leb_le; lia).
  now rewrite H0, Hmax.
Qed.

(** X13: Activities listed against the clock: when the next activity starts no
    later than the current one, and the current one lasts at least a
    microsecond (and at most a million hours), the pair is reported as
    overlapping, with the buffer issue besides.  The check compares clock
    times of one day, so an activity after midnight that follows an evening
    activity is such a pair. *)
Theorem out_of_order_is_overlap (day : DayPlan.t) (cur nxt : Activity.t)
    (t1 t2 : Z) :
  strptime (Activity.time cur) = Ok t1 ->
  strptime (Activity.time nxt) = Ok t2 ->
  (t2 <= t1)%Z ->
  (1 # 3600000000 <= Activity.duration_hours cur <= 1000000)%Q ->
  exists buf,
    buffer_time cur nxt = Ok buf /\ (buf < 0)%Q /\
    pair_issues day cur nxt
    = Ok [buffer_issue day cur nxt buf; overlap_issue day cur nxt].
Proof.
  intros H1 H2 Hle [Hlo Hhi].
  assert (Hrange : (- (1000000) <= Activity.duration_hours cur <= 1000000)%Q)
    by (split; lra).
  pose proof (timedelta_hours_value _ Hrange) as Htd.
  destruct (timedelta_hours_bounded _ Hrange) as (d & Hd & Hdr).
  rewrite Htd in Hd. injection Hd as Hd.
  assert (Hd1 : (1 <= d)%Z).
  { rewrite <- Hd.
    pose proof (round_half_even_bounds
                  (Activity.duration_hours cur * inject_Z US_PER_HOUR)) as Hr.
    assert (Hx : (inject_Z 1 <= Activity.duration_hours cur * inject_Z US_PER_HOUR)%Q).
    { unfold US_PER_HOUR. change (inject_Z 1) with 1%Q.
      change (inject_Z 3600000000) with 3600000000%Q. lra. }
    apply Qfloor_resp_le in Hx. rewrite Qfloor_Z in Hx. lia. }
  assert (Hbuf : buffer_time cur nxt = Ok (hours_between t2 (t1 + d))).
  { unfold buffer_time. rewrite H1, H2. simpl. rewrite Htd. simpl.
    rewrite Hd. rewrite (datetime_add_in_range t1 d); [reflexivity| |exact Hdr].
    now apply strptime_range in H1. }
  assert (Hneg : (hours_between t2 (t1 + d) < 0)%Q).
  { unfold hours_between.
    assert (Hz : (inject_Z (t2 - (t1 + d)) <= inject_Z (-1))%Q)
      by (rewrite <- Zle_Qle; lia).
    change (inject_Z (-1)) with (-1)%Q in Hz.
    set (x := inject_Z (t2 - (t1 + d))) in *.
    assert (E : (x / 1000000 / 3600 == x * (1 # 3600000000))%Q) by (field).
    rewrite E. lra. }
  exists (hours_between t2 (t1 + d)).
  split; [exact Hbuf|]. split; [exact Hneg|].
  now apply pair_issues_overlap.
Qed.

(** Dinner at 23:00 for two hours, then a night walk at 00:30. *)
Lemma out_of_order_is_overlap_witness :
  exists buf,
    buffer_time (activity_at "23:00" "Dinner" 2) (activity_at "00:30" "Night walk" 1)
    = Ok buf /\ (buf < 0)%Q /\
    pair_issues quiet_day (activity_at "23:00" "Dinner" 2)
      (activity_at "00:30" "Night walk" 1)
    = Ok [buffer_issue quiet_day (activity_at "23:00" "Dinner" 2)
            (activity_at "00:30" "Night walk" 1) buf;
          overlap_issue quiet_day (activity_at "23:00" "Dinner" 2)
            (activity_at "00:30" "Night walk" 1)].
Proof.
  apply (out_of_order_is_overlap quiet_day (activity_at "23:00" "Dinner" 2)
           (activity_at "00:30" "Night walk" 1) 82800000000 1800000000).
  - reflexivity.
  - reflexivity.
  - vm_compute. discriminate.
  - split; vm_compute; discriminate.
Defined.

(** ** Batches *)

(** X14: Every batch of well-formed plans (times that parse, durations within a
    million hours) is validated against a numeric budget other than zero: the
    batch returns, with one result per plan. *)
Theorem well_formed_batch_is_validated (plans : list TravelPlan.t)
    (reqs : gmap string PyVal) (b : Q) :
  requirements_budget reqs = PyNum b -> ~ (b == 0)%Q ->
  Forall well_formed plans ->
  Forall (fun plan => is_Ok (_validate_single_plan plan reqs)) plans /\
  exists rs, validate_plans plans reqs = Ok rs /\ length rs = length plans.
Proof.
  intros Hb Hnz Hwf. split.
  - eapply Forall_impl; [exact Hwf|]. intros plan Hp.
    exact (validate_single_plan_total plan reqs b Hb Hnz Hp).
  - exact (validate_plans_total plans reqs b Hb Hnz Hwf).
Qed.

Lemma quiet_plan_well_formed (id : string) : well_formed (quiet_plan id).
Proof.
  exists [quiet_day]. split; [reflexivity|].
  repeat constructor; try (eexists; reflexivity); discriminate.
Defined.

Lemma well_formed_batch_is_validated_witness :
  Forall (fun plan => is_Ok (_validate_single_plan plan (budget_of 1000)))
    [quiet_plan "A"; quiet_plan "B"] /\
  exists rs,
    validate_plans [quiet_plan "A"; quiet_plan "B"] (budget_of 1000) = Ok rs /\
    length rs = length [quiet_plan "A"; quiet_plan "B"].
Proof.
  apply (well_formed_batch_is_validated [quiet_plan "A"; quiet_plan "B"]
           (budget_of 1000) 1000).
  - reflexivity.
  - intros H. discriminate H.
  - repeat constructor; apply quiet_plan_well_formed.
Defined.

Lemma validate_single_plan_plan_id (plan : TravelPlan.t) (reqs : gmap string PyVal)
    (res : ValidationResult) :
  _validate_single_plan plan reqs = Ok res -> plan_id res = TravelPlan.plan_id plan.
Proof.
  intros H. apply validate_single_plan_Ok in H
    as (i1 & i2 & i3 & i4 & i5 & w & _ & _ & _ & _ & _ & _ & ->). reflexivity.
Qed.

(** X15: The results of a batch line up with its plans: the k-th result is the
    result of the k-th plan and carries its plan id, which is what pairing
    plans and results by position relies on. *)
Theorem batch_results_align (plans : list TravelPlan.t) (reqs : gmap string PyVal)
    (rs : list ValidationResult) :
  validate_plans plans reqs = Ok rs ->
  map plan_id rs = map TravelPlan.plan_id plans /\
  (forall (k : nat) (plan : TravelPlan.t),
     plans !! k = Some plan ->
     exists res, rs !! k = Some res /\
                 _validate_single_plan plan reqs = Ok res /\
                 plan_id res = TravelPlan.plan_id plan).
Proof.
  intros H. apply validate_plans_Ok in H. split.
  - induction H as [|plan res plans rs Hres _ IH]; [reflexivity|].
    simpl. now rewrite IH, (validate_single_plan_plan_id plan reqs res Hres).
  - intros k plan Hk.
    destruct (Forall2_lookup_l _ _ _ _ _ H Hk) as (res & Hr & Hres).
    exists res. split; [exact Hr|]. split; [exact Hres|].
    now apply validate_single_plan_plan_id in Hres.
Qed.

Lemma batch_results_align_witness :
  map plan_id
    (returned (_validate_single_plan (quiet_plan "A") (budget_of 1000))
     :: [returned (_validate_single_plan (quiet_plan "C") (budget_of 1000))])
  = map TravelPlan.plan_id [quiet_plan "A"; quiet_plan "C"] /\
  (forall (k : nat) (plan : TravelPlan.t),
     [quiet_plan "A"; quiet_plan "C"] !! k = Some plan ->
     exists res,
       (returned (_validate_single_plan (quiet_plan "A") (budget_of 1000))
        :: [returned (_validate_single_plan (quiet_plan "C") (budget_of 1000))])
       !! k = Some res /\
       _validate_single_plan plan (budget_of 1000) = Ok res /\
       plan_id res = TravelPlan.plan_id plan).
Proof.
  apply (batch_results_align [quiet_plan "A"; quiet_plan "C"] (budget_of 1000)).
  reflexivity.
Defined.

(** X16: Validating a batch made of two batches is validating the first and then
    the second: the results are appended, and an exception of the first
    batch comes before any of the second. *)
Theorem validate_plans_app (l1 l2 : list TravelPlan.t) (reqs : gmap string PyVal) :
  validate_plans (l1 ++ l2) reqs
  = (r1 ← validate_plans l1 reqs; r2 ← validate_plans l2 reqs; Ok (r1 ++ r2)).
Proof.
  induction l1 as [|plan l1 IH]; simpl.
  - now destruct (validate_plans l2 reqs).
  - destruct (_validate_single_plan plan reqs) as [res|e]; simpl; [|reflexivity].
    rewrite IH. destruct (validate_plans l1 reqs) as [r1|e]; simpl; [|reflexivity].
    now destruct (validate_plans l2 reqs).
Qed.

(** ** What the validator reads *)

Section Relabelling.

(** A change of the activities, days and plans that keeps the fields the
    validator reads. *)
Variable fa : Activity.t -> Activity.t.
Variable fd : DayPlan.t -> DayPlan.t.
Variable fp : TravelPlan.t -> TravelPlan.t.

Hypothesis fa_time : forall a, Activity.time (fa a) = Activity.time a.
Hypothesis fa_name : forall a, Activity.name (fa a) = Activity.name a.
Hypothesis fa_cost : forall a, Activity.estimated_cost (fa a) = Activity.estimated_cost a.
Hypothesis fa_duration : forall a, Activity.duration_hours (fa a) = Activity.duration_hours a.
Hypothesis fa_category : forall a, Activity.category (fa a) = Activity.category a.
Hypothesis fa_source : forall a, Activity.source (fa a) = Activity.source a.
Hypothesis fd_day_number : forall d, DayPlan.day_number (fd d) = DayPlan.day_number d.
Hypothesis fd_total_cost : forall d, DayPlan.total_cost (fd d) = DayPlan.total_cost d.
Hypothesis fd_activities :
  forall d, DayPlan.activities (fd d) = map fa (DayPlan.activities d).
Hypothesis fp_plan_id : forall p, TravelPlan.plan_id (fp p) = TravelPlan.plan_id p.
Hypothesis fp_total_cost : forall p, TravelPlan.total_cost (fp p) = TravelPlan.total_cost p.
Hypothesis fp_daily_plans :
  forall p, TravelPlan.daily_plans (fp p) = option_map (map fd) (TravelPlan.daily_plans p).
Hypothesis fp_accommodation :
  forall p, TravelPlan.accommodation (fp p) = TravelPlan.accommodation p.
Hypothesis fp_transportation :
  forall p, TravelPlan.transportation (fp p) = TravelPlan.transportation p.

Lemma relabel_map {X} (g : Activity.t -> X) (l : list Activity.t) :
  (forall a, g (fa a) = g a) -> map g (map fa l) = map g l.
Proof. intros H. rewrite map_map. apply map_ext. exact H. Qed.

Lemma relabel_names (l : list Activity.t) : names (map fa l) = names l.
Proof. apply relabel_map, fa_name. Qed.

Lemma relabel_filter_names (f : Activity.t -> bool) (l : list Activity.t) :
  (forall a, f (fa a) = f a) ->
  names (List.filter f (map fa l)) = names (List.filter f l).
Proof.
  intros H. unfold names. induction l as [|a r IH]; [reflexivity|].
  cbn [map List.filter]. rewrite H. destruct (f a); cbn [map]; now rewrite ?fa_name, IH.
Qed.

Lemma relabel_filter_length (f : Activity.t -> bool) (l : list Activity.t) :
  (forall a, f (fa a) = f a) ->
  length (List.filter f (map fa l)) = length (List.filter f l).
Proof.
  intros H. induction l as [|a r IH]; [reflexivity|].
  cbn [map List.filter]. rewrite H. destruct (f a); cbn [length]; now rewrite IH.
Qed.

Lemma relabel_pair_issues (d : DayPlan.t) (a b : Activity.t) :
  pair_issues (fd d) (fa a) (fa b) = pair_issues d a b.
Proof.
  unfold pair_issues, buffer_time, buffer_issue, overlap_issue.
  now rewrite !fa_time, !fa_duration, !fa_name, !fd_day_number.
Qed.

Lemma relabel_consecutive_issues (d : DayPlan.t) (l : list Activity.t) :
  consecutive_issues (fd d) (map fa l) = consecutive_issues d l.
Proof.
  induction l as [|a r IH]; [reflexivity|].
  destruct r as [|b r]; [reflexivity|].
  change (map fa (a :: b :: r)) with (fa a :: fa b :: map fa r).
  rewrite !consecutive_issues_step, relabel_pair_issues.
  change (fa b :: map fa r) with (map fa (b :: r)).
  now rewrite IH.
Qed.

Lemma relabel_long_activity_issues (d : DayPlan.t) :
  long_activity_issues (fd d) = long_activity_issues d.
Proof.
  unfold long_activity_issues. rewrite fd_activities, fd_day_number.
  induction (DayPlan.activities d) as [|a r IH]; [reflexivity|].
  cbn [map flat_map]. now rewrite fa_duration, fa_name, IH.
Qed.

Lemma relabel_timing_of_day (d : DayPlan.t) :
  timing_of_day (fd d) = timing_of_day d.
Proof.
  unfold timing_of_day.
  rewrite fd_activities, relabel_consecutive_issues, relabel_long_activity_issues.
  unfold activity_count_issues, too_many_issue, too_few_issue.
  now rewrite fd_activities, fd_day_number, relabel_names, length_map.
Qed.

Lemma relabel_balance_of_day (d : DayPlan.t) :
  balance_of_day (fd d) = balance_of_day d.
Proof.
  unfold balance_of_day.
  rewrite fd_activities, fd_day_number, relabel_names.
  rewrite (relabel_map Activity.duration_hours _ fa_duration),
    (relabel_map Activity.category _ fa_category).
  rewrite (relabel_filter_names
             (fun a => String.eqb (Activity.category a) "dining")).
  - reflexivity.
  - intros a. now rewrite fa_category.
Qed.

Lemma relabel_feasibility_of_day (d : DayPlan.t) :
  flat_map (feasibility_of_activity (fd d)) (DayPlan.activities (fd d))
  = flat_map (feasibility_of_activity d) (DayPlan.activities d).
Proof.
  rewrite fd_activities, flat_map_map. apply flat_map_ext. intros a.
  unfold feasibility_of_activity. now rewrite fa_cost, fa_name, fd_day_number.
Qed.

Lemma relabel_days {X} (g : DayPlan.t -> list X) (days : list DayPlan.t) :
  (forall d, g (fd d) = g d) -> flat_map g (map fd days) = flat_map g days.
Proof. intros H. rewrite flat_map_map. apply flat_map_ext. exact H. Qed.

Lemma relabel_activity_counts (days : list DayPlan.t) :
  map (fun day => Z.of_nat (length (DayPlan.activities day))) (map fd days)
  = map (fun day => Z.of_nat (length (DayPlan.activities day))) days.
Proof.
  rewrite map_map. apply map_ext. intros x. now rewrite fd_activities, length_map.
Qed.

Lemma relabel_sourced_length (days : list DayPlan.t) :
  length (flat_map (fun day =>
            List.filter (fun activity =>
                           negb (String.eqb (Activity.source activity) ""))
              (DayPlan.activities day)) (map fd days))
  = length (flat_map (fun day =>
              List.filter (fun activity =>
                             negb (String.eqb (Activity.source activity) ""))
                (DayPlan.activities day)) days).
Proof.
  induction days as [|x days IH]; [reflexivity|].
  cbn [map flat_map]. rewrite !length_app, IH, fd_activities.
  f_equal. apply relabel_filter_length.
  intros a. now rewrite fa_source.
Qed.

Lemma relabel_validate_single_plan (p : TravelPlan.t) (reqs : gmap string PyVal) :
  _validate_single_plan (fp p) reqs = _validate_single_plan p reqs.
Proof.
  assert (H1 : _validate_budget (fp p) reqs = _validate_budget p reqs)
    by (unfold _validate_budget; now rewrite fp_total_cost).
  assert (Hiter : iter_daily_plans (fp p) = map fd <$> iter_daily_plans p).
  { unfold iter_daily_plans. rewrite fp_daily_plans.
    now destruct (TravelPlan.daily_plans p). }
  assert (H2 : _validate_timing (fp p) = _validate_timing p).
  { unfold _validate_timing. rewrite Hiter.
    destruct (iter_daily_plans p) as [days|e]; simpl; [|reflexivity].
    rewrite for_each_map. apply for_each_ext, relabel_timing_of_day. }
  assert (H3 : _validate_daily_balance (fp p) = _validate_daily_balance p).
  { unfold _validate_daily_balance. rewrite Hiter.
    destruct (iter_daily_plans p) as [days|e]; simpl; [|reflexivity].
    now rewrite (relabel_days _ _ relabel_balance_of_day). }
  assert (H4 : _validate_activity_feasibility (fp p)
               = _validate_activity_feasibility p).
  { unfold _validate_activity_feasibility. rewrite Hiter.
    destruct (iter_daily_plans p) as [days|e]; simpl; [|reflexivity].
    now rewrite (relabel_days
                   (fun day => flat_map (feasibility_of_activity day)
                                 (DayPlan.activities day))
                   _ relabel_feasibility_of_day). }
  assert (H5 : _validate_cost_distribution (fp p) = _validate_cost_distribution p).
  { destruct (TravelPlan.daily_plans p) as [ds|] eqn:Hd.
    - assert (Hd' : TravelPlan.daily_plans (fp p) = Some (map fd ds))
        by (rewrite fp_daily_plans, Hd; reflexivity).
      rewrite (validate_cost_distribution_Ok _ _ Hd'),
        (validate_cost_distribution_Ok _ _ Hd).
      unfold average_daily_cost.
      assert (Hc : map DayPlan.total_cost (map fd ds) = map DayPlan.total_cost ds)
        by (rewrite map_map; apply map_ext, fd_total_cost).
      rewrite Hc. f_equal.
      rewrite flat_map_map. apply flat_map_ext. intros x.
      unfold distribution_of_day. now rewrite fd_total_cost, fd_day_number.
    - unfold _validate_cost_distribution. now rewrite fp_daily_plans, Hd. }
  assert (H6 : _check_warnings (fp p) = _check_warnings p).
  { unfold _check_warnings. rewrite Hiter, fp_accommodation, fp_transportation.
    destruct (iter_daily_plans p) as [days|e]; simpl; [|reflexivity].
    now rewrite relabel_activity_counts, relabel_sourced_length. }
  unfold _validate_single_plan. now rewrite H1, H2, H3, H4, H5, H6, fp_plan_id.
Qed.

End Relabelling.

(** X17: The result of a validation (issues with their messages, warnings, score,
    status, plan id) depends only on the plan id, the total cost, the
    accommodation and transportation records, the number and total cost of
    each day, and the time, name, cost, duration, category and source of each
    activity.  The cost breakdown in particular is never read. *)
Theorem only_the_read_fields_matter (p1 p2 : TravelPlan.t) (reqs : gmap string PyVal) :
  read_of_plan p1 = read_of_plan p2 ->
  _validate_single_plan p1 reqs = _validate_single_plan p2 reqs.
Proof.
  intros H.
  assert (Hread : forall p,
            _validate_single_plan (read_of_plan p) reqs = _validate_single_plan p reqs).
  { intros p.
    apply (relabel_validate_single_plan read_of_activity read_of_day read_of_plan);
      reflexivity. }
  now rewrite <- (Hread p1), <- (Hread p2), H.
Qed.

Lemma only_the_read_fields_matter_witness :
  _validate_single_plan (quiet_plan "A") (budget_of 1000)
  = _validate_single_plan
      (TravelPlan.mk "A" "Another name" "luxury" 1000
         (<["activities" := 5%Q]> ∅) (Some [quiet_day])
         (Some (<["name" := PyStr "Hotel du Nord"]> ∅))
         (Some (<["daily" := PyStr "Metro"]> ∅))
         ["Eiffel Tower"] "packed")
      (budget_of 1000).
Proof.
  apply (only_the_read_fields_matter (quiet_plan "A")).
  reflexivity.
Defined.

(** * Plans as dictionaries *)

Lemma omap_fmap_id {A B} (f : A -> option B) (g : B -> A) (m : gmap string B) :
  (forall x, f (g x) = Some x) -> omap f (g <$> m) = m.
Proof.
  intros H. apply map_eq. intros k.
  rewrite lookup_omap, lookup_fmap. destruct (m !! k); simpl; [apply H|reflexivity].
Qed.

Lemma map_Forall_fmap_is_Some {A B} (f : A -> option B) (g : B -> A)
    (m : gmap string B) :
  (forall x, f (g x) = Some x) ->
  map_Forall (fun _ x => is_Some (f x)) (g <$> m).
Proof.
  intros H k x Hk. rewrite lookup_fmap in Hk.
  destruct (m !! k) as [y|]; [|discriminate Hk].
  injection Hk as <-. rewrite H. eexists. reflexivity.
Qed.

Lemma scalar_of_json_of_scalar (v : PyVal) : scalar_of_json (json_of_scalar v) = Some v.
Proof. now destruct v. Qed.

Lemma as_record_json_of_record (r : option (gmap string PyVal)) :
  as_record (json_of_record r) = Done r.
Proof.
  destruct r as [m|]; [|reflexivity]. simpl.
  rewrite bool_decide_eq_true_2
    by (apply map_Forall_fmap_is_Some, scalar_of_json_of_scalar).
  now rewrite (omap_fmap_id _ _ m scalar_of_json_of_scalar).
Qed.

Lemma as_costs_of_costs (m : gmap string Q) : as_costs (JDict (JNum <$> m)) = Done m.
Proof.
  simpl.
  rewrite bool_decide_eq_true_2
    by (apply map_Forall_fmap_is_Some; reflexivity).
  now rewrite (omap_fmap_id number_of_json JNum m).
Qed.

Lemma as_strs_of_strings (l : list string) : as_strs (JList (JStr <$> l)) = Done l.
Proof.
  simpl. induction l as [|s l IH]; [reflexivity|].
  cbn. cbn in IH. now rewrite IH.
Qed.

Lemma as_int_of_int (n : Z) : as_int (JNum (inject_Z n)) = Done n.
Proof.
  unfold as_int. rewrite Qfloor_Z.
  now rewrite (proj2 (Qeq_bool_iff _ _) (Qeq_refl _)).
Qed.

Lemma activity_of_dict_to_dict (a : Activity.t) :
  activity_of_dict (activity_to_dict a) = Done a.
Proof. destruct a. reflexivity. Qed.

Lemma activities_of_dicts (l : list Activity.t) :
  mapM activity_of_dict (map activity_to_dict l) = Done l.
Proof.
  induction l as [|a l IH]; [reflexivity|].
  cbn [map mapM]. rewrite activity_of_dict_to_dict. cbn. cbn in IH. now rewrite IH.
Qed.

Lemma day_of_dict_to_dict (d : DayPlan.t) : day_of_dict (day_to_dict d) = Done d.
Proof.
  destruct d as [n date theme acts cost notes]. unfold day_of_dict.
  change (subscript (day_to_dict (DayPlan.mk n date theme acts cost notes)) "activities")
    with (Done (JList (map activity_to_dict acts))).
  cbn [mbind Outcome_bind iterate].
  rewrite activities_of_dicts. cbn [mbind Outcome_bind].
  change (subscript (day_to_dict (DayPlan.mk n date theme acts cost notes)) "day_number")
    with (Done (JNum (inject_Z n))).
  cbn [mbind Outcome_bind]. rewrite as_int_of_int.
  reflexivity.
Qed.

Lemma days_of_dicts (l : list DayPlan.t) :
  mapM day_of_dict (map day_to_dict l) = Done l.
Proof.
  induction l as [|d l IH]; [reflexivity|].
  cbn [map mapM]. rewrite day_of_dict_to_dict. cbn. cbn in IH. now rewrite IH.
Qed.

Lemma outcome_bind_Done {A B} (m : Outcome A) (f : A -> Outcome B) (b : B) :
  m ≫= f = Done b <-> exists a, m = Done a /\ f a = Done b.
Proof.
  destruct m as [a|e|]; simpl; split.
  - intros H. now exists a.
  - now intros (a' & [= <-] & H).
  - discriminate.
  - now intros (a' & [=] & _).
  - discriminate.
  - now intros (a' & [=] & _).
Qed.

(** Peels the binds off a hypothesis [m ≫= f = Done b], last step first. *)
Ltac done_steps H :=
  repeat (let a := fresh "v" in
          let Ha := fresh "Hv" in
          apply outcome_bind_Done in H as (a & Ha & H)).

(** ** The round trip through a dictionary *)

(** X18: [_plan_to_dict] followed by [_dict_to_plan] gives the plan back, with the
    plan id that [_dict_to_plan] is given: nothing else is lost or changed. *)
Theorem plan_dict_round_trip (plan : TravelPlan.t) (days : list DayPlan.t)
    (new_id : string) :
  TravelPlan.daily_plans plan = Some days ->
  exists plan_dict,
    _plan_to_dict plan = Done plan_dict /\
    _dict_to_plan plan_dict new_id
    = Done (TravelPlan.mk new_id (TravelPlan.plan_name plan) (TravelPlan.theme plan)
              (TravelPlan.total_cost plan) (TravelPlan.cost_breakdown plan)
              (Some days) (TravelPlan.accommodation plan)
              (TravelPlan.transportation plan) (TravelPlan.key_highlights plan)
              (TravelPlan.pace plan)) /\
    _dict_to_plan plan_dict (TravelPlan.plan_id plan) = Done plan.
Proof.
  intros Hd.
  destruct plan as [id name theme cost breakdown dp acc tr high pace].
  simpl in Hd. subst dp.
  eexists. split; [reflexivity|].
  assert (Hgen : forall i,
    _dict_to_plan
      (JDict
         (<["plan_id" := JStr id]>
         (<["plan_name" := JStr name]>
         (<["theme" := JStr theme]>
         (<["pace" := JStr pace]>
         (<["total_cost" := JNum cost]>
         (<["cost_breakdown" := JDict (JNum <$> breakdown)]>
         (<["accommodation" := json_of_record acc]>
         (<["transportation" := json_of_record tr]>
         (<["key_highlights" := JList (JStr <$> high)]>
         (<["daily_plans" := JList (map day_to_dict days)]> ∅)))))))))))
      i
    = Done (TravelPlan.mk i name theme cost breakdown (Some days) acc tr high pace)).
  { intros i. unfold _dict_to_plan.
    match goal with |- context [subscript ?d "daily_plans"] =>
      change (subscript d "daily_plans") with (Done (JList (map day_to_dict days)));
      change (subscript d "plan_name") with (Done (JStr name));
      change (subscript d "theme") with (Done (JStr theme));
      change (subscript d "total_cost") with (Done (JNum cost));
      change (subscript d "cost_breakdown") with (Done (JDict (JNum <$> breakdown)));
      change (subscript d "accommodation") with (Done (json_of_record acc));
      change (subscript d "transportation") with (Done (json_of_record tr));
      change (subscript d "key_highlights") with (Done (JList (JStr <$> high)));
      change (subscript d "pace") with (Done (JStr pace))
    end.
    cbn [mbind Outcome_bind iterate as_str as_num].
    rewrite days_of_dicts. cbn [mbind Outcome_bind].
    rewrite as_costs_of_costs. cbn [mbind Outcome_bind].
    rewrite !as_record_json_of_record. cbn [mbind Outcome_bind].
    rewrite as_strs_of_strings. reflexivity. }
  split; apply Hgen.
Qed.

Lemma plan_dict_round_trip_witness :
  exists plan_dict,
    _plan_to_dict over_budget_plan = Done plan_dict /\
    _dict_to_plan plan_dict "C"
    = Done (TravelPlan.mk "C" (TravelPlan.plan_name over_budget_plan)
              (TravelPlan.theme over_budget_plan)
              (TravelPlan.total_cost over_budget_plan)
              (TravelPlan.cost_breakdown over_budget_plan)
              (Some [quiet_day]) (TravelPlan.accommodation over_budget_plan)
              (TravelPlan.transportation over_budget_plan)
              (TravelPlan.key_highlights over_budget_plan)
              (TravelPlan.pace over_budget_plan)) /\
    _dict_to_plan plan_dict (TravelPlan.plan_id over_budget_plan)
    = Done over_budget_plan.
Proof.
  apply (plan_dict_round_trip over_budget_plan [quiet_day] "C").
  reflexivity.
Defined.

(** ** What the planner's parser computes *)

Lemma parse_activities_total (acts : list Json) (c0 : Q)
    (activities : list Activity.t) (total : Q) :
  parse_activities acts c0 = Done (activities, total) ->
  total = fold_left Qplus (map Activity.estimated_cost activities) c0
  /\ length activities = length acts.
Proof.
  revert c0 activities total.
  induction acts as [|a acts IH]; intros c0 activities total H.
  - injection H as <- <-. now split.
  - cbn [parse_activities] in H. done_steps H.
    destruct v0 as [rest t]. injection H as <- <-.
    apply IH in Hv0 as [-> Hlen]. split; [reflexivity|].
    cbn [length]. now rewrite Hlen.
Qed.

Lemma parse_day_total (day_data : Json) (day : DayPlan.t) :
  parse_day day_data = Done day ->
  DayPlan.total_cost day = py_sum (map Activity.estimated_cost (DayPlan.activities day)).
Proof.
  unfold parse_day. intros H. done_steps H.
  destruct v0 as [activities day_cost]. done_steps H.
  injection H as <-. cbn [DayPlan.total_cost DayPlan.activities].
  now apply parse_activities_total in Hv0 as [-> _].
Qed.

Lemma parse_days_total (days : list Json) (c0 : Q)
    (daily_plans : list DayPlan.t) (total : Q) :
  parse_days days c0 = Done (daily_plans, total) ->
  total = fold_left Qplus (map DayPlan.total_cost daily_plans) c0
  /\ length daily_plans = length days
  /\ Forall (fun day => DayPlan.total_cost day
                        = py_sum (map Activity.estimated_cost (DayPlan.activities day)))
       daily_plans.
Proof.
  revert c0 daily_plans total.
  induction days as [|d days IH]; intros c0 daily_plans total H.
  - injection H as <- <-. now repeat split.
  - cbn [parse_days] in H. done_steps H.
    destruct v0 as [rest t]. injection H as <- <-.
    apply IH in Hv0 as (-> & Hlen & Hall). split; [reflexivity|]. split.
    + cbn [length]. now rewrite Hlen.
    + constructor; [now apply parse_day_total in Hv|exact Hall].
Qed.

Lemma as_num_Done (v : Json) (x : Q) : as_num v = Done x -> v = JNum x.
Proof.
  destruct v; try discriminate. now intros [= ->].
Qed.

(** X19: Whenever [_parse_plan_json] returns a plan, the plan's costs are
    recomputed from the itinerary and never taken from totals that the
    response may state: every day's total is the sum of its activities'
    costs, the accommodation cost is the nightly rate times the nights, the
    transport cost is the daily estimate (0 when absent) times the number of
    days, the breakdown has exactly these three entries, the first being the
    sum of the day totals, and the plan's total is their sum. *)
Theorem parsed_costs_are_recomputed (plan_json : Json) (theme_config : ThemeConfig.t)
    (plan : TravelPlan.t) :
  _parse_plan_json plan_json theme_config = Done plan ->
  exists (days : list DayPlan.t) (accommodation transportation : Json)
         (cost_per_night total_nights estimated_daily_cost : Q),
    TravelPlan.daily_plans plan = Some days
    /\ Forall (fun day => DayPlan.total_cost day
                          = py_sum (map Activity.estimated_cost (DayPlan.activities day)))
         days
    /\ subscript plan_json "accommodation" = Done accommodation
    /\ subscript accommodation "cost_per_night" = Done (JNum cost_per_night)
    /\ subscript accommodation "total_nights" = Done (JNum total_nights)
    /\ subscript plan_json "transportation" = Done transportation
    /\ get transportation "estimated_daily_cost" (JNum 0)
       = Done (JNum estimated_daily_cost)
    /\ TravelPlan.cost_breakdown plan
       = cost_breakdown_of (py_sum (map DayPlan.total_cost days))
           (cost_per_night * total_nights)
           (estimated_daily_cost * inject_Z (Z.of_nat (length days)))
    /\ TravelPlan.total_cost plan
       = (py_sum (map DayPlan.total_cost days)
          + cost_per_night * total_nights
          + estimated_daily_cost * inject_Z (Z.of_nat (length days)))%Q.
Proof.
  unfold _parse_plan_json. intros H. done_steps H.
  destruct v0 as [daily_plans total]. done_steps H.
  injection H as <-. cbn [TravelPlan.daily_plans TravelPlan.cost_breakdown
                          TravelPlan.total_cost].
  apply parse_days_total in Hv0 as (-> & _ & Hall).
  repeat match goal with
         | E : as_num _ = Done _ |- _ => apply as_num_Done in E; subst
         end.
  eexists daily_plans, _, _, _, _, _.
  split; [reflexivity|]. split; [exact Hall|].
  repeat (split; [eassumption|]). split; reflexivity.
Qed.

Lemma parsed_costs_are_recomputed_witness :
  exists (days : list DayPlan.t) (accommodation transportation : Json)
         (cost_per_night total_nights estimated_daily_cost : Q),
    TravelPlan.daily_plans sample_parsed_plan = Some days
    /\ Forall (fun day => DayPlan.total_cost day
                          = py_sum (map Activity.estimated_cost (DayPlan.activities day)))
         days
    /\ subscript sample_plan_json "accommodation" = Done accommodation
    /\ subscript accommodation "cost_per_night" = Done (JNum cost_per_night)
    /\ subscript accommodation "total_nights" = Done (JNum total_nights)
    /\ subscript sample_plan_json "transportation" = Done transportation
    /\ get transportation "estimated_daily_cost" (JNum 0)
       = Done (JNum estimated_daily_cost)
    /\ TravelPlan.cost_breakdown sample_parsed_plan
       = cost_breakdown_of (py_sum (map DayPlan.total_cost days))
           (cost_per_night * total_nights)
           (estimated_daily_cost * inject_Z (Z.of_nat (length days)))
    /\ TravelPlan.total_cost sample_parsed_plan
       = (py_sum (map DayPlan.total_cost days)
          + cost_per_night * total_nights
          + estimated_daily_cost * inject_Z (Z.of_nat (length days)))%Q.
Proof.
  apply (parsed_costs_are_recomputed sample_plan_json balanced_theme).
  vm_compute. reflexivity.
Defined.

(** ** The two serialisers *)

(** X20: The planner's [_plan_to_dict] and the refinement agent's build equal
    dictionaries of every plan (the order of the keys aside), and fail alike
    on a plan without days. *)
Theorem serialisers_agree (plan : TravelPlan.t) :
  PlannerAgent._plan_to_dict plan = _plan_to_dict plan.
Proof.
  unfold PlannerAgent._plan_to_dict, _plan_to_dict.
  destruct (TravelPlan.daily_plans plan) as [days|]; [|reflexivity].
  reflexivity.
Qed.

(** ** Activities without a source *)

Lemma activity_of_dict_forget_source (a : Activity.t) :
  activity_of_dict (forget_source (activity_to_dict a)) = Done (without_source a).
Proof. destruct a. reflexivity. Qed.

Lemma activities_of_dicts_forget_source (l : list Activity.t) :
  mapM activity_of_dict (map forget_source (map activity_to_dict l))
  = Done (map without_source l).
Proof.
  induction l as [|a l IH]; [reflexivity|].
  cbn [map mapM]. rewrite activity_of_dict_forget_source. cbn. cbn in IH.
  now rewrite IH.
Qed.

Lemma day_of_dict_forget_sources (d : DayPlan.t) :
  day_of_dict (forget_sources_of_day (day_to_dict d)) = Done (day_without_sources d).
Proof.
  destruct d as [n date theme acts cost notes]. unfold day_of_dict.
  change (subscript (forget_sources_of_day
                       (day_to_dict (DayPlan.mk n date theme acts cost notes)))
            "activities")
    with (Done (JList (map forget_source (map activity_to_dict acts)))).
  cbn [mbind Outcome_bind iterate].
  rewrite activities_of_dicts_forget_source. cbn [mbind Outcome_bind].
  change (subscript (forget_sources_of_day
                       (day_to_dict (DayPlan.mk n date theme acts cost notes)))
            "day_number")
    with (Done (JNum (inject_Z n))).
  cbn [mbind Outcome_bind]. rewrite as_int_of_int.
  reflexivity.
Qed.

Lemma days_of_dicts_forget_sources (l : list DayPlan.t) :
  mapM day_of_dict (map forget_sources_of_day (map day_to_dict l))
  = Done (map day_without_sources l).
Proof.
  induction l as [|d l IH]; [reflexivity|].
  cbn [map mapM]. rewrite day_of_dict_forget_sources. cbn. cbn in IH.
  now rewrite IH.
Qed.

Lemma parse_activity_forget_source (a : Activity.t) :
  parse_activity (forget_source (activity_to_dict a)) = Throws (Py.KeyError "source").
Proof. destruct a. reflexivity. Qed.

Lemma parse_day_forget_sources (d : DayPlan.t) :
  parse_day (forget_sources_of_day (day_to_dict d))
  = match DayPlan.activities d with
    | [] => Done (DayPlan.mk (DayPlan.day_number d) (DayPlan.date d) (DayPlan.theme d)
                    [] 0 (DayPlan.notes d))
    | _ :: _ => Throws (Py.KeyError "source")
    end.
Proof.
  destruct d as [n date theme acts cost notes]. unfold parse_day.
  change (subscript (forget_sources_of_day
                       (day_to_dict (DayPlan.mk n date theme acts cost notes)))
            "activities")
    with (Done (JList (map forget_source (map activity_to_dict acts)))).
  cbn [mbind Outcome_bind iterate DayPlan.activities].
  destruct acts as [|a acts].
  - cbn [map parse_activities mbind Outcome_bind].
    change (subscript (forget_sources_of_day
                         (day_to_dict (DayPlan.mk n date theme [] cost notes)))
              "day_number")
      with (Done (JNum (inject_Z n))).
    change (subscript (forget_sources_of_day
                         (day_to_dict (DayPlan.mk n date theme [] cost notes)))
              "date")
      with (Done (JStr date)).
    change (subscript (forget_sources_of_day
                         (day_to_dict (DayPlan.mk n date theme [] cost notes)))
              "theme")
      with (Done (JStr theme)).
    change (get (forget_sources_of_day
                   (day_to_dict (DayPlan.mk n date theme [] cost notes)))
              "notes" (JStr ""))
      with (Done (JStr notes)).
    cbn [mbind Outcome_bind]. rewrite as_int_of_int. reflexivity.
  - cbn [map parse_activities]. rewrite parse_activity_forget_source. reflexivity.
Qed.

Lemma parse_days_forget_sources (l : list DayPlan.t) (c0 : Q) :
  all_activities l <> [] ->
  parse_days (map forget_sources_of_day (map day_to_dict l)) c0
  = Throws (Py.KeyError "source").
Proof.
  revert c0. induction l as [|d l IH]; intros c0 Hne; [now destruct Hne|].
  cbn [map parse_days]. rewrite parse_day_forget_sources.
  unfold all_activities in Hne. cbn [flat_map] in Hne.
  destruct (DayPlan.activities d) as [|a acts]; [|reflexivity].
  cbn [mbind Outcome_bind]. rewrite IH by exact Hne. reflexivity.
Qed.

(** X21: The refinement agent reads a dictionary whose activities state no source
    and fills in the empty string; the planner's parser raises
    [KeyError: 'source'] on the same dictionary as soon as the itinerary has
    an activity. *)
Theorem missing_source_is_filled_in_or_fatal (plan : TravelPlan.t)
    (days : list DayPlan.t) (plan_dict : Json) (plan_id : string)
    (theme_config : ThemeConfig.t) :
  TravelPlan.daily_plans plan = Some days ->
  all_activities days <> [] ->
  _plan_to_dict plan = Done plan_dict ->
  _dict_to_plan (forget_sources plan_dict) plan_id
  = Done (TravelPlan.mk plan_id (TravelPlan.plan_name plan) (TravelPlan.theme plan)
            (TravelPlan.total_cost plan) (TravelPlan.cost_breakdown plan)
            (Some (map day_without_sources days)) (TravelPlan.accommodation plan)
            (TravelPlan.transportation plan) (TravelPlan.key_highlights plan)
            (TravelPlan.pace plan))
  /\ _parse_plan_json (forget_sources plan_dict) theme_config
     = Throws (Py.KeyError "source").
Proof.
  intros Hd Hne Hdict.
  destruct plan as [id name theme cost breakdown dp acc tr high pace].
  simpl in Hd. subst dp. injection Hdict as <-.
  cbn [TravelPlan.plan_id TravelPlan.plan_name TravelPlan.theme TravelPlan.total_cost
       TravelPlan.cost_breakdown TravelPlan.accommodation TravelPlan.transportation
       TravelPlan.key_highlights TravelPlan.pace].
  split.
  - unfold _dict_to_plan.
    match goal with |- context [subscript ?d "daily_plans"] =>
      change (subscript d "daily_plans")
        with (Done (JList (map forget_sources_of_day (map day_to_dict days))));
      change (subscript d "plan_name") with (Done (JStr name));
      change (subscript d "theme") with (Done (JStr theme));
      change (subscript d "total_cost") with (Done (JNum cost));
      change (subscript d "cost_breakdown") with (Done (JDict (JNum <$> breakdown)));
      change (subscript d "accommodation") with (Done (json_of_record acc));
      change (subscript d "transportation") with (Done (json_of_record tr));
      change (subscript d "key_highlights") with (Done (JList (JStr <$> high)));
      change (subscript d "pace") with (Done (JStr pace))
    end.
    cbn [mbind Outcome_bind iterate as_str as_num].
    rewrite days_of_dicts_forget_sources. cbn [mbind Outcome_bind].
    rewrite as_costs_of_costs. cbn [mbind Outcome_bind].
    rewrite !as_record_json_of_record. cbn [mbind Outcome_bind].
    rewrite as_strs_of_strings. reflexivity.
  - unfold _parse_plan_json.
    match goal with |- context [subscript ?d "daily_plans"] =>
      change (subscript d "daily_plans")
        with (Done (JList (map forget_sources_of_day (map day_to_dict days))))
    end.
    cbn [mbind Outcome_bind iterate].
    now rewrite parse_days_forget_sources.
Qed.

Lemma missing_source_is_filled_in_or_fatal_witness :
  exists plan_dict,
    _plan_to_dict over_budget_plan = Done plan_dict
    /\ _dict_to_plan (forget_sources plan_dict) "A"
       = Done (TravelPlan.mk "A" (TravelPlan.plan_name over_budget_plan)
                 (TravelPlan.theme over_budget_plan)
                 (TravelPlan.total_cost over_budget_plan)
                 (TravelPlan.cost_breakdown over_budget_plan)
                 (Some (map day_without_sources [quiet_day]))
                 (TravelPlan.accommodation over_budget_plan)
                 (TravelPlan.transportation over_budget_plan)
                 (TravelPlan.key_highlights over_budget_plan)
                 (TravelPlan.pace over_budget_plan))
    /\ _parse_plan_json (forget_sources plan_dict) balanced_theme
       = Throws (Py.KeyError "source").
Proof.
  eexists. split; [reflexivity|].
  apply (missing_source_is_filled_in_or_fatal over_budget_plan [quiet_day]);
    [reflexivity|discriminate|reflexivity].
Defined.
